(** * The api-gateway request pipeline of go-shopping, embedded in Rocq

    The development follows the Go sources of the gateway:

    - [pkg/errors]            : [AppError], its constructors and [ErrorResponse];
    - [internal/util]         : the structured logger ([LogError], [LogInfo],
                                [GinLogger]);
    - [internal/middleware]   : [RecoveryMiddleware], [RequestIDMiddleware],
                                [AuthMiddleware], [isPublicEndpoint],
                                [validateToken];
    - [internal/handler]      : [ServiceProxy] ([NewServiceProxy], [Handler]),
                                [NotFoundHandler], [MethodNotAllowedHandler];
    - [cmd/.../main.go]       : the router wiring.

    Go strings are byte strings, so they are Rocq [string]s (one [ascii] per
    byte).  Go maps with string keys ([gin.H], [http.Header], [gin.Context.Keys],
    the field bags handed to the logger) are [gmap string _].  Integers that
    the code never lets overflow (status codes, durations) are [Z].

    The libraries the gateway is built on (gin's [Context] and response
    writer, zerolog's events, [httputil.ReverseProxy], [google/uuid]) are not
    part of the repository; the fragments of their behaviour that the gateway
    code relies on are modelled in the modules named after them, each with a
    comment saying which library function it stands for. *)

From Stdlib Require Import ZArith Lia Ascii String.
From stdpp Require Import gmap strings list fin_maps.

Local Open Scope Z_scope.

(** ** Dynamic values

    [any] stands for the Go values of type [interface{}] that the gateway
    puts into JSON bodies, log fields, context keys and panics: strings,
    integers and durations (nanoseconds). *)
Inductive any : Type :=
| AStr (s : string)
| AInt (n : Z)
| ADur (ns : Z).

Global Instance any_eq_dec : EqDecision any.
Proof. solve_decision. Defined.

(** ** Go string primitives *)
Module GoString.

(** [len(s)]: the number of bytes. *)
Definition len (s : string) : Z := Z.of_nat (String.length s).

(** [s[:hi]].  Go panics when [hi] exceeds [len(s)]; [None] stands for that
    run-time panic. *)
Definition slice_to (s : string) (hi : nat) : option string :=
  if (hi <=? String.length s)%nat then Some (String.substring 0 hi s) else None.

(** [strings.Split(s, sep)] for a separator of one byte, which is how the
    gateway calls it: the pieces between consecutive occurrences of [sep];
    always at least one piece. *)
Fixpoint Split (s : string) (sep : ascii) : list string :=
  match s with
  | EmptyString => [EmptyString]
  | String c rest =>
      if Ascii.eqb c sep then EmptyString :: Split rest sep
      else match Split rest sep with
           | [] => [String c EmptyString]
           | p :: ps => String c p :: ps
           end
  end.

(** [strings.Contains(s, string(c))]. *)
Fixpoint contains (s : string) (c : ascii) : bool :=
  match s with
  | EmptyString => false
  | String a rest => Ascii.eqb a c || contains rest c
  end.

End GoString.

(** ** pkg/errors *)
Module errors.

(** [StackTrace []uintptr]: the program counters [runtime.Callers] returned. *)
Definition StackTrace := list Z.

(** [AppError], over the type [E] of Go's [error] interface values (the
    [Internal] field is such a value, or nil). *)
Record AppError_ (E : Type) : Type := mkAppError {
  Code : Z;
  Message : string;
  Details : string;
  Internal : option E;
  Stack : option StackTrace
}.
Arguments mkAppError {E}.
Arguments Code {E}.
Arguments Message {E}.
Arguments Details {E}.
Arguments Internal {E}.
Arguments Stack {E}.

(** A value of Go's [error] interface as the gateway meets it: a
    pointer to an [AppError], or an error of another type (a transport error, the result
    of [fmt.Errorf]) known by its [Error()] text. *)
#[warnings="-register-all"]
Inductive error : Type :=
| OtherError (text : string)
| IsAppError (e : AppError_ error).

Abbreviation AppError := (AppError_ error).

Definition StatusBadRequest : Z := 400.
Definition StatusUnauthorized : Z := 401.
Definition StatusNotFound : Z := 404.
Definition StatusMethodNotAllowed : Z := 405.
Definition StatusUnprocessableEntity : Z := 422.
Definition StatusInternalServerError : Z := 500.
Definition StatusOK : Z := 200.

(** [AppError.Error] and the [Error()] of the interface value. *)
Fixpoint Error (err : error) : string :=
  match err with
  | OtherError text => text
  | IsAppError e =>
      match Internal e with
      | Some inner => Message e +:+ ": " +:+ Error inner
      | None => Message e
      end
  end.

(** [AppError.WithStack]: records the callers once.  [pcs] is what
    [runtime.Callers] returns at the call site. *)
Definition WithStack (pcs : StackTrace) (e : AppError) : AppError :=
  match Stack e with
  | None => mkAppError (Code e) (Message e) (Details e) (Internal e) (Some pcs)
  | Some _ => e
  end.

Definition NewAppError (pcs : StackTrace) (code : Z) (message details : string) : AppError :=
  WithStack pcs (mkAppError code message details None None).

Definition NewInternalError (pcs : StackTrace) (message : string) (err : option error) : AppError :=
  WithStack pcs (mkAppError StatusInternalServerError message "" err None).

Definition NewBadRequestError (pcs : StackTrace) (message : string) : AppError :=
  WithStack pcs (mkAppError StatusBadRequest message "" None None).

Definition NewUnauthorizedError (pcs : StackTrace) (message : string) : AppError :=
  WithStack pcs (mkAppError StatusUnauthorized message "" None None).

Definition NewNotFoundError (pcs : StackTrace) (message : string) : AppError :=
  WithStack pcs (mkAppError StatusNotFound message "" None None).

Definition NewValidationError (pcs : StackTrace) (message details : string) : AppError :=
  WithStack pcs (mkAppError StatusUnprocessableEntity message details None None).

(** [ErrorResponse]: the status and the JSON object of the envelope. *)
Definition ErrorResponse (err : error) : Z * gmap string any :=
  match err with
  | IsAppError appErr =>
      let response : gmap string any :=
        <["code" := AInt (Code appErr)]> (<["error" := AStr (Message appErr)]> ∅) in
      let response :=
        if decide (Details appErr = "") then response
        else <["details" := AStr (Details appErr)]> response in
      (Code appErr, response)
  | OtherError _ =>
      (StatusInternalServerError,
       <["code" := AInt StatusInternalServerError]>
         (<["error" := AStr "Internal server error"]> ∅))
  end.

(** [AppError.Unwrap]. *)
Definition Unwrap (e : AppError) : option error := Internal e.

(** [GetAppError(err)]: the [AppError] behind the interface value, nil
    ([None]) for an error of another type. *)
Definition GetAppError (err : error) : option AppError :=
  match err with
  | IsAppError e => Some e
  | OtherError _ => None
  end.

End errors.

(** ** internal/middleware: token validation *)
Module token.
Import GoString errors.

(** What a Go call can do: return its results, or panic. *)
Inductive GoResult (A : Type) : Type :=
| Returns (a : A)
| Panics (reason : string).
Arguments Returns {A}.
Arguments Panics {A}.

(** [validateToken(tokenString, jwtSecret) (string, error)].  The second
    component is the error, [None] for nil.  [pcs] is the stack that the
    error constructors capture. *)
Definition validateToken (pcs : StackTrace) (tokenString jwtSecret : string)
  : GoResult (string * option error) :=
  if decide (tokenString = "") then
    Returns ("", Some (IsAppError (NewUnauthorizedError pcs "Empty token")))
  else if len tokenString <? 10 then
    Returns ("", Some (IsAppError (NewUnauthorizedError pcs "Invalid token format")))
  else
    match slice_to tokenString 8 with
    | Some prefix => Returns ("user-" +:+ prefix, None)
    | None => Panics "slice bounds out of range"
    end.

End token.

(** ** zerolog: structured log events

    An event has a level, a bag of fields and, once [Msg] is called, a
    message.  The gateway's log, below, is the sequence of events on which
    [Msg] was called, each with the level it was opened with; the filter by
    the configured global level lives in the sink that [NewLogger] sets up. *)
Module zerolog.
Import errors.

Inductive Level : Type := DebugLevel | InfoLevel | WarnLevel | ErrorLevel.

Global Instance Level_eq_dec : EqDecision Level.
Proof. solve_decision. Defined.

Record Event : Type := mkEvent {
  level : Level;
  fields : gmap string any;
  message : string
}.

Definition newEvent (l : Level) : Event := mkEvent l ∅ "".

Definition Interface (key : string) (v : any) (e : Event) : Event :=
  mkEvent (level e) (<[key := v]> (fields e)) (message e).

Definition Str (key val : string) (e : Event) : Event := Interface key (AStr val) e.
Definition Int (key : string) (val : Z) (e : Event) : Event := Interface key (AInt val) e.
Definition Dur (key : string) (d : Z) (e : Event) : Event := Interface key (ADur d) e.

(** [Err(err)]: the field ["error"] with the text of the error. *)
Definition Err (err : error) (e : Event) : Event := Str "error" (Error err) e.

(** [Msg(text)] completes the event; the caller appends it to the log. *)
Definition Msg (text : string) (e : Event) : Event :=
  mkEvent (level e) (fields e) text.

End zerolog.

(** ** gin and net/http: request, response writer, context *)
Module gin.
Import zerolog.

(** [http.Request].  Header names are written as the code writes them; Go
    compares them modulo canonical case.  A header may be present with an
    empty value. *)
Record Request : Type := mkRequest {
  Method : string;
  URLPath : string;
  RawQuery : string;
  Header : gmap string (list string);
  RemoteIP : string
}.

(** [http.Header.Get]: the first value of the header, [""] when there is
    none. *)
Definition Header_Get (h : gmap string (list string)) (key : string) : string :=
  match h !! key with
  | Some (v :: _) => v
  | _ => ""
  end.

Definition UserAgent (r : Request) : string := Header_Get (Header r) "User-Agent".

(** What has been written to the client: a rendered JSON object (kept as the
    object that was marshalled), raw bytes, or the short HTML note with which
    [http.Redirect] follows the headers of a redirected GET (kept as the
    location it links to). *)
Inductive Chunk : Type :=
| JSONBody (obj : gmap string any)
| RawBody (data : string)
| RedirectNote (location : string).

(** gin's [responseWriter].  gin keeps [size], which is [noWritten = -1] until
    the header has been sent; the model keeps whether it is still
    [noWritten], which is all [Written()] reads. *)
Record ResponseWriter : Type := mkWriter {
  status : Z;
  written : bool;
  wheader : gmap string string;
  body : list Chunk
}.

Definition defaultStatus : Z := 200.

(** [responseWriter.reset]: the writer of a fresh context. *)
Definition newWriter : ResponseWriter := mkWriter defaultStatus false ∅ [].

Definition Written (w : ResponseWriter) : bool := written w.

(** [responseWriter.WriteHeader]. *)
Definition WriteHeader (code : Z) (w : ResponseWriter) : ResponseWriter :=
  if (0 <? code) && negb (status w =? code) then
    if Written w then w
    else mkWriter code (written w) (wheader w) (body w)
  else w.

(** [responseWriter.WriteHeaderNow]. *)
Definition WriteHeaderNow (w : ResponseWriter) : ResponseWriter :=
  if Written w then w else mkWriter (status w) true (wheader w) (body w).

(** [responseWriter.Write]. *)
Definition Write (data : Chunk) (w : ResponseWriter) : ResponseWriter :=
  let w := WriteHeaderNow w in
  mkWriter (status w) (written w) (wheader w) (body w ++ [data]).

(** [w.Header().Set(key, value)]. *)
Definition SetHeader (key value : string) (w : ResponseWriter) : ResponseWriter :=
  mkWriter (status w) (written w) (<[key := value]> (wheader w)) (body w).

Definition DelHeader (key : string) (w : ResponseWriter) : ResponseWriter :=
  mkWriter (status w) (written w) (delete key (wheader w)) (body w).

(** [gin.Context] for one request, together with what the handlers reach
    through globals: the log sink, the clock, the random source, the stack
    that [runtime.Callers] would capture, and the outbound requests handed
    to a proxy's transport (one per call of [RoundTrip]; whether and how
    often the transport puts a request on the wire is its own business). *)
Record Ctx : Type := mkCtx {
  Req : Request;
  Writer : ResponseWriter;
  Keys : gmap string any;
  aborted : bool;
  Log : list Event;
  Now : Z;
  Rand : nat → ascii;
  RandPos : nat;
  Callers : list Z;
  Sent : list Request
}.

Definition newCtx (r : Request) (now : Z) (rand : nat → ascii) (pcs : list Z) : Ctx :=
  mkCtx r newWriter ∅ false [] now rand 0 pcs [].

Definition withWriter (w : ResponseWriter) (c : Ctx) : Ctx :=
  mkCtx (Req c) w (Keys c) (aborted c) (Log c) (Now c) (Rand c) (RandPos c) (Callers c) (Sent c).

Definition withReq (r : Request) (c : Ctx) : Ctx :=
  mkCtx r (Writer c) (Keys c) (aborted c) (Log c) (Now c) (Rand c) (RandPos c) (Callers c) (Sent c).

Definition withNow (t : Z) (c : Ctx) : Ctx :=
  mkCtx (Req c) (Writer c) (Keys c) (aborted c) (Log c) t (Rand c) (RandPos c) (Callers c) (Sent c).

Definition withRandPos (p : nat) (c : Ctx) : Ctx :=
  mkCtx (Req c) (Writer c) (Keys c) (aborted c) (Log c) (Now c) (Rand c) p (Callers c) (Sent c).

Definition withSent (rs : list Request) (c : Ctx) : Ctx :=
  mkCtx (Req c) (Writer c) (Keys c) (aborted c) (Log c) (Now c) (Rand c) (RandPos c) (Callers c) rs.

(** Appending a completed event to the log. *)
Definition emit (e : Event) (c : Ctx) : Ctx :=
  mkCtx (Req c) (Writer c) (Keys c) (aborted c) (Log c ++ [e]) (Now c) (Rand c) (RandPos c)
        (Callers c) (Sent c).

(** [c.GetHeader]. *)
Definition GetHeader (key : string) (c : Ctx) : string := Header_Get (Header (Req c)) key.

(** [c.Header(key, value)]: an empty value deletes the header. *)
Definition SetRespHeader (key value : string) (c : Ctx) : Ctx :=
  if decide (value = "") then withWriter (DelHeader key (Writer c)) c
  else withWriter (SetHeader key value (Writer c)) c.

(** [c.Set(key, value)]. *)
Definition Set_ (key : string) (v : any) (c : Ctx) : Ctx :=
  mkCtx (Req c) (Writer c) (<[key := v]> (Keys c)) (aborted c) (Log c) (Now c) (Rand c)
        (RandPos c) (Callers c) (Sent c).

(** [c.GetString(key)]: [""] unless the key holds a string. *)
Definition GetString (key : string) (c : Ctx) : string :=
  match Keys c !! key with
  | Some (AStr s) => s
  | _ => ""
  end.

(** [c.Abort()]: no handler after the current one runs. *)
Definition Abort (c : Ctx) : Ctx :=
  mkCtx (Req c) (Writer c) (Keys c) true (Log c) (Now c) (Rand c) (RandPos c) (Callers c) (Sent c).

Definition ClientIP (c : Ctx) : string := RemoteIP (Req c).

(** [bodyAllowedForStatus]. *)
Definition bodyAllowedForStatus (code : Z) : bool :=
  negb (((100 <=? code) && (code <=? 199)) || (code =? 204) || (code =? 304)).

(** The JSON renderer's [WriteContentType]: sets the header unless one is
    already there. *)
Definition writeContentType (value : string) (w : ResponseWriter) : ResponseWriter :=
  match wheader w !! "Content-Type" with
  | Some _ => w
  | None => SetHeader "Content-Type" value w
  end.

(** [c.JSON(code, obj)], that is [c.Render(code, render.JSON{obj})]. *)
Definition JSON (code : Z) (obj : gmap string any) (c : Ctx) : Ctx :=
  let w := WriteHeader code (Writer c) in
  let w := writeContentType "application/json; charset=utf-8" w in
  if bodyAllowedForStatus code then withWriter (Write (JSONBody obj) w) c
  else withWriter (WriteHeaderNow w) c.

(** A handler either returns or panics with a value; the stack is what
    [debug.Stack()] reports while the panic unwinds. *)
Inductive Outcome : Type :=
| Returned (c : Ctx)
| Panicked (v : any) (stack : string) (c : Ctx).

Definition HandlerFunc : Type := Ctx → Outcome.

(** A middleware is a handler that may call [c.Next()]: it receives the rest
    of the chain.  Every middleware of the gateway ends each of its paths
    with [c.Next()] or with [c.Abort()], so the rest of the chain runs
    exactly where [next] is applied. *)
Definition Middleware : Type := HandlerFunc → HandlerFunc.

(** The handlers of a route: the middlewares in order around the final
    handler. *)
Fixpoint chain (ms : list Middleware) (final : HandlerFunc) : HandlerFunc :=
  match ms with
  | [] => final
  | m :: rest => m (chain rest final)
  end.

Definition ctxOf (o : Outcome) : Ctx :=
  match o with
  | Returned c => c
  | Panicked _ _ c => c
  end.

End gin.

(** ** google/uuid: random (version 4) identifiers *)
Module uuid.

(** [UUID [16]byte]. *)
Definition UUID : Type := list ascii.

(** [io.ReadFull(rander, uuid[:])]: the next [n] bytes of the random
    source. *)
Definition readRandom (rand : nat → ascii) (pos n : nat) : list ascii :=
  map rand (seq pos n).

(** [b & andMask | orMask] on a byte. *)
Definition maskByte (andMask orMask : N) (b : ascii) : ascii :=
  ascii_of_N (N.lor (N.land (N_of_ascii b) andMask) orMask).

(** [NewRandomFromReader]: 16 random bytes with the version (4) and variant
    (10) bits forced. *)
Definition NewRandom (rand : nat → ascii) (pos : nat) : UUID :=
  let u := readRandom rand pos 16 in
  let u := alter (maskByte 15 64) 6%nat u in
  alter (maskByte 63 128) 8%nat u.

Definition hextable : string := "0123456789abcdef".

Definition hexDigit (n : N) : ascii :=
  match String.get (N.to_nat n) hextable with
  | Some d => d
  | None => "0"%char
  end.

(** [hex.Encode] on one byte: two lower-case digits. *)
Definition encodeByte (b : ascii) : string :=
  String (hexDigit (N.shiftr (N_of_ascii b) 4))
         (String (hexDigit (N.land (N_of_ascii b) 15)) EmptyString).

Fixpoint hexEncode (bs : list ascii) : string :=
  match bs with
  | [] => EmptyString
  | b :: rest => encodeByte b +:+ hexEncode rest
  end.

(** [UUID.String], through [encodeHex]: the groups of 4, 2, 2, 2 and 6
    bytes separated by dashes. *)
Definition String_ (u : UUID) : string :=
  hexEncode (take 4 u) +:+ "-" +:+
  hexEncode (take 2 (drop 4 u)) +:+ "-" +:+
  hexEncode (take 2 (drop 6 u)) +:+ "-" +:+
  hexEncode (take 2 (drop 8 u)) +:+ "-" +:+
  hexEncode (drop 10 u).

(** [hex.fromHexChar], used to read an encoded byte back. *)
Definition fromHexChar (c : ascii) : option N :=
  let n := N_of_ascii c in
  if (48 <=? n)%N && (n <=? 57)%N then Some (n - 48)%N
  else if (97 <=? n)%N && (n <=? 102)%N then Some (n - 97 + 10)%N
  else if (65 <=? n)%N && (n <=? 70)%N then Some (n - 65 + 10)%N
  else None.

Definition decodeByte (hi lo : ascii) : option ascii :=
  match fromHexChar hi, fromHexChar lo with
  | Some h, Some l => Some (ascii_of_N (N.lor (N.shiftl h 4) l))
  | _, _ => None
  end.

End uuid.

(** ** internal/util: the logger *)
Module util.
Import errors zerolog gin.

(** [Logger.LogError(err, context)]: an error-level event with the error and
    every entry of [context] as a field. *)
Definition LogError (err : error) (context : gmap string any) (c : Ctx) : Ctx :=
  let logEvent := Err err (newEvent ErrorLevel) in
  let logEvent := map_fold Interface logEvent context in
  emit (Msg "Application error" logEvent) c.

(** [Logger.LogInfo(message, context)]. *)
Definition LogInfo (message : string) (context : gmap string any) (c : Ctx) : Ctx :=
  let logEvent := newEvent InfoLevel in
  let logEvent := map_fold Interface logEvent context in
  emit (Msg message logEvent) c.

(** [Logger.GinLogger()].  Nothing is deferred: when [c.Next()] panics the
    statements after it do not run. *)
Definition GinLogger : Middleware := fun next c =>
  let start := Now c in
  let path := URLPath (Req c) in
  let raw := RawQuery (Req c) in
  match next c with
  | Panicked v stack c' => Panicked v stack c'
  | Returned c' =>
      let end_ := Now c' in
      let latency := end_ - start in
      let path := if decide (raw = "") then path else path +:+ "?" +:+ raw in
      let logger :=
        if 400 <=? status (Writer c') then newEvent ErrorLevel else newEvent InfoLevel in
      let logger := Str "method" (Method (Req c')) logger in
      let logger := Str "path" path logger in
      let logger := Int "status" (status (Writer c')) logger in
      let logger := Str "ip" (ClientIP c') logger in
      let logger := Str "user_agent" (UserAgent (Req c')) logger in
      let logger := Dur "latency" latency logger in
      let logger := Str "request_id" (GetString "request_id" c') logger in
      Returned (emit (Msg "HTTP request" logger) c')
  end.

End util.

(** ** internal/middleware *)
Module middleware.
Import GoString errors zerolog gin token.

(** The envelope literals [gin.H{"error": message, "code": code}]. *)
Definition envelope (message : string) (code : Z) : gmap string any :=
  <["code" := AInt code]> (<["error" := AStr message]> ∅).

(** [RecoveryMiddleware(logger)]: the deferred function runs when the rest
    of the chain panics. *)
Definition RecoveryMiddleware : Middleware := fun next c =>
  match next c with
  | Returned c' => Returned c'
  | Panicked err stack c' =>
      let ev := newEvent ErrorLevel in
      let ev := Interface "error" err ev in
      let ev := Str "stack" stack ev in
      let ev := Str "path" (URLPath (Req c')) ev in
      let ev := Str "method" (Method (Req c')) ev in
      let ev := Str "client_ip" (ClientIP c') ev in
      let ev := Str "user_agent" (UserAgent (Req c')) ev in
      let c1 := emit (Msg "Panic recovered" ev) c' in
      let c2 :=
        if status (Writer c1) =? 0 then
          JSON StatusInternalServerError
               (envelope "Internal server error" StatusInternalServerError) c1
        else c1 in
      Returned (Abort c2)
  end.

(** [RequestIDMiddleware()]. *)
Definition RequestIDMiddleware : Middleware := fun next c =>
  let requestID := GetHeader "X-Request-ID" c in
  let '(requestID, c) :=
    if decide (requestID = "") then
      (uuid.String_ (uuid.NewRandom (Rand c) (RandPos c)), withRandPos (RandPos c + 16)%nat c)
    else (requestID, c) in
  let c := Set_ "request_id" (AStr requestID) c in
  let c := SetRespHeader "X-Request-ID" requestID c in
  next c.

Definition LoggingMiddleware : Middleware := util.GinLogger.

Definition publicEndpoints : list string :=
  ["/api/v1/auth/login"; "/api/v1/auth/register"; "/health"].

(** [isPublicEndpoint(path)]: the loop over the slice. *)
Fixpoint isPublicEndpoint_in (endpoints : list string) (path : string) : bool :=
  match endpoints with
  | [] => false
  | endpoint :: rest =>
      if decide (path = endpoint) then true else isPublicEndpoint_in rest path
  end.

Definition isPublicEndpoint (path : string) : bool :=
  isPublicEndpoint_in publicEndpoints path.

(** [AuthMiddleware(jwtSecret, logger)]. *)
Definition AuthMiddleware (jwtSecret : string) : Middleware := fun next c =>
  if isPublicEndpoint (URLPath (Req c)) then next c
  else
    let authHeader := GetHeader "Authorization" c in
    if decide (authHeader = "") then
      Returned (Abort (JSON StatusUnauthorized
                            (envelope "Authorization header required" StatusUnauthorized) c))
    else
      let parts := Split authHeader " " in
      if negb (length parts =? 2)%nat || negb (bool_decide (parts !! 0%nat = Some "Bearer")) then
        Returned (Abort (JSON StatusUnauthorized
                              (envelope "Invalid authorization header format" StatusUnauthorized) c))
      else
        let tokenString := default "" (parts !! 1%nat) in
        match validateToken (Callers c) tokenString jwtSecret with
        | Panics reason => Panicked (AStr reason) "" c
        | Returns (userID, Some err) =>
            let c := emit (Msg "Invalid token" (Str "path" (URLPath (Req c)) (newEvent WarnLevel))) c in
            Returned (Abort (JSON StatusUnauthorized
                                  (envelope "Invalid or expired token" StatusUnauthorized) c))
        | Returns (userID, None) =>
            let c := Set_ "user_id" (AStr userID) c in
            next c
        end.

End middleware.

(** ** net/http/httputil: the reverse proxy and its transport *)
Module httputil.
Import errors gin.

(** A response body as a reader: the bytes it will deliver and whether the
    stream then ends cleanly ([None]) or with a read error. *)
Record BodyReader : Type := mkBody {
  pending : string;
  failure : option string
}.

(** [io.ReadAll]: everything that could be read, the error if the stream
    broke, and the reader left behind, which has nothing more to give. *)
Definition ReadAll (b : BodyReader) : string * option error * BodyReader :=
  (pending b, OtherError <$> failure b, mkBody "" (failure b)).

(** [io.NopCloser(bytes.NewReader(data))]. *)
Definition NewReader (data : string) : BodyReader := mkBody data None.

(** [http.Response]: the fields the gateway reads. *)
Record Response : Type := mkResponse {
  StatusCode : Z;
  Status : string;
  Body : BodyReader;
  Request_ : Request
}.

(** What the network does with an outbound request: the connection fails
    after some time, a response head arrives after some time, or nothing
    ever comes back.  Times are in nanoseconds from the start of the
    outbound leg. *)
Inductive Exchange : Type :=
| Fails (after : Z) (reason : string)
| Answers (after : Z) (res : Response)
| Silent.

Definition deadlineExceeded : error := OtherError "context deadline exceeded".

(** [Transport.RoundTrip] under a request context that expires [timeout]
    after the start: the time spent and the response or the error. *)
Definition RoundTrip (x : Exchange) (timeout : Z) : Z * (Response + error) :=
  match x with
  | Fails after reason =>
      if after <? timeout then (Z.max 0 after, inr (OtherError reason))
      else (Z.max 0 timeout, inr deadlineExceeded)
  | Answers after res =>
      if after <? timeout then (Z.max 0 after, inl res)
      else (Z.max 0 timeout, inr deadlineExceeded)
  | Silent => (Z.max 0 timeout, inr deadlineExceeded)
  end.

(** [singleJoiningSlash], by which the director of
    [NewSingleHostReverseProxy] joins the target's path and the request's. *)
Definition singleJoiningSlash (a b : string) : string :=
  let aslash := bool_decide (String.get (String.length a - 1)%nat a = Some "/"%char) in
  let bslash := bool_decide (String.get 0%nat b = Some "/"%char) in
  if aslash && bslash then a +:+ String.substring 1 (String.length b - 1)%nat b
  else if negb aslash && negb bslash then a +:+ "/" +:+ b
  else a +:+ b.

(** The outbound request that [ServeHTTP] and the director of
    [NewSingleHostReverseProxy] make from the inbound one.  The method is
    kept and the path is the target's path joined with the request's; those
    are what the gateway's hooks read.  The query string and the headers are
    rewritten by the library (the target's query is put in front,
    hop-by-hop headers are removed, [X-Forwarded-For] is set, ...): the
    gateway code reads neither, and [outbound] gives them as the library
    makes them. *)
Definition Director (targetPath : string)
    (outbound : Request → string * gmap string (list string)) (r : Request) : Request :=
  mkRequest (Method r) (singleJoiningSlash targetPath (URLPath r))
            (fst (outbound r)) (snd (outbound r)) (RemoteIP r).

(** [httputil.ReverseProxy] with the two hooks that [NewServiceProxy]
    installs.  [ErrorHandler] writes to the response writer of the context
    it is given; [ModifyResponse] returns the response as it left it, the
    error ([None] for nil) and the context with the log it wrote.
    [Outbound] is the library's rewriting of query and headers (see
    [Director]).  [Upgrade] is the library's [handleUpgradeResponse], which
    takes over the client's connection when the upstream answers 101
    Switching Protocols; what it does depends on the two peers and is taken
    as given. *)
Record ReverseProxy : Type := mkReverseProxy {
  TargetPath : string;
  Transport : Request → Exchange;
  ErrorHandler : Request → error → Ctx → Ctx;
  ModifyResponse : Response → Ctx → Response * option error * Ctx;
  Outbound : Request → string * gmap string (list string);
  Upgrade : Request → Response → Ctx → Outcome
}.

(** [http.ErrAbortHandler], with which [ServeHTTP] panics when the body
    breaks while it is being copied to the client. *)
Definition ErrAbortHandler : any := AStr "net/http: abort Handler".

(** [ReverseProxy.ServeHTTP(c.Writer, c.Request)] under a context that
    expires after [timeout]: the outbound request is handed to the
    transport; a transport error or an error from [ModifyResponse] goes to
    [ErrorHandler]; a 101 response goes to [Upgrade]; otherwise the status
    is written and the body copied. *)
Definition ServeHTTP (p : ReverseProxy) (timeout : Z) (c : Ctx) : Outcome :=
  let outreq := Director (TargetPath p) (Outbound p) (Req c) in
  let c := withSent (Sent c ++ [outreq]) c in
  let '(elapsed, result) := RoundTrip (Transport p outreq) timeout in
  let c := withNow (Now c + elapsed) c in
  match result with
  | inr err => Returned (ErrorHandler p outreq err c)
  | inl res =>
      let res := mkResponse (StatusCode res) (Status res) (Body res) outreq in
      match ModifyResponse p res c with
      | (_, Some err, c) => Returned (ErrorHandler p outreq err c)
      | (res, None, c) =>
          if StatusCode res =? 101 then Upgrade p outreq res c
          else
            let w := WriteHeader (StatusCode res) (Writer c) in
            let w := if decide (pending (Body res) = "") then w
                     else Write (RawBody (pending (Body res))) w in
            match failure (Body res) with
            | None => Returned (withWriter w c)
            | Some _ => Panicked ErrAbortHandler "" (withWriter w c)
            end
      end
  end.

End httputil.

(** ** internal/handler *)
Module handler.
Import errors zerolog gin util httputil.

(** [ServiceProxy].  [targetText] is [p.target.String()]. *)
Record ServiceProxy : Type := mkServiceProxy {
  targetText : string;
  proxy : ReverseProxy;
  timeout : Z
}.

(** The [proxy.ErrorHandler] closure of [NewServiceProxy]. *)
Definition proxyErrorHandler (targetURL : string) (r : Request) (err : error) (c : Ctx) : Ctx :=
  let c := LogError err
             (<["url" := AStr targetURL]>
              (<["method" := AStr (Method r)]>
               (<["path" := AStr (URLPath r)]> ∅))) c in
  let '(statusCode, response) :=
    ErrorResponse (IsAppError (NewInternalError (Callers c) "Service unavailable" (Some err))) in
  let w := SetHeader "Content-Type" "application/json" (Writer c) in
  let w := WriteHeader statusCode w in
  let w := Write (JSONBody response) w in
  withWriter w c.

(** The [proxy.ModifyResponse] closure of [NewServiceProxy]. *)
Definition proxyModifyResponse (targetURL : string) (resp : Response) (c : Ctx)
  : Response * option error * Ctx :=
  let c := LogInfo "Service response"
             (<["url" := AStr targetURL]>
              (<["method" := AStr (Method (Request_ resp))]>
               (<["path" := AStr (URLPath (Request_ resp))]>
                (<["status" := AInt (StatusCode resp)]>
                 (<["status_text" := AStr (Status resp)]> ∅))))) c in
  if 400 <=? StatusCode resp then
    let '(body, err, drained) := ReadAll (Body resp) in
    let resp := mkResponse (StatusCode resp) (Status resp) drained (Request_ resp) in
    match err with
    | Some err =>
        (resp,
         Some (IsAppError (NewInternalError (Callers c) "Failed to read error response" (Some err))),
         c)
    | None =>
        let c := LogError (OtherError ("service returned error: " +:+ Status resp))
                   (<["url" := AStr targetURL]>
                    (<["method" := AStr (Method (Request_ resp))]>
                     (<["path" := AStr (URLPath (Request_ resp))]>
                      (<["status_code" := AInt (StatusCode resp)]>
                       (<["response_body" := AStr body]> ∅))))) c in
        let resp := mkResponse (StatusCode resp) (Status resp) (NewReader body) (Request_ resp) in
        (resp, None, c)
    end
  else (resp, None, c).

(** The target as [url.Parse] delivers it: its path and its text. *)
Record URL : Type := mkURL {
  Path : string;
  Text : string
}.

(** [NewServiceProxy(targetURL, timeout, logger)].  [parsed] is the result of
    [url.Parse(targetURL)]; [network] is what the proxy's transport reaches,
    and [outbound] and [upgrade] are the two pieces of the library's
    [ReverseProxy] that the model takes as given. *)
Definition NewServiceProxy (targetURL : string) (parsed : URL + error) (timeout : Z)
    (network : Request → Exchange)
    (outbound : Request → string * gmap string (list string))
    (upgrade : Request → Response → Ctx → Outcome)
    (pcs : StackTrace) : ServiceProxy + error :=
  match parsed with
  | inr err => inr (IsAppError (NewInternalError pcs "Invalid target URL" (Some err)))
  | inl target =>
      inl (mkServiceProxy (Text target)
             (mkReverseProxy (Path target) network
                (proxyErrorHandler targetURL) (proxyModifyResponse targetURL)
                outbound upgrade)
             timeout)
  end.

(** [ServiceProxy.Handler()]. *)
Definition Handler (p : ServiceProxy) : HandlerFunc := fun c =>
  let c := LogInfo "Proxying request"
             (<["url" := AStr (targetText p)]>
              (<["method" := AStr (Method (Req c))]>
               (<["path" := AStr (URLPath (Req c))]>
                (<["query" := AStr (RawQuery (Req c))]> ∅)))) c in
  match ServeHTTP (proxy p) (timeout p) c with
  | Panicked v stack c => Panicked v stack c
  | Returned c =>
      Returned (LogInfo "Request completed"
                  (<["url" := AStr (targetText p)]>
                   (<["method" := AStr (Method (Req c))]>
                    (<["path" := AStr (URLPath (Req c))]>
                     (<["status_code" := AInt (status (Writer c))]>
                      (<["client_ip" := AStr (ClientIP c)]> ∅))))) c)
  end.

(** [HealthCheck].  The timestamp is the clock reading, as a duration since
    the epoch. *)
Definition HealthCheck : HandlerFunc := fun c =>
  Returned (JSON StatusOK
              (<["status" := AStr "healthy"]>
               (<["timestamp" := ADur (Now c)]>
                (<["service" := AStr "api-gateway"]>
                 (<["version" := AStr "1.0.0"]> ∅)))) c).

(** [NotFoundHandler]. *)
Definition NotFoundHandler : HandlerFunc := fun c =>
  Returned (JSON StatusNotFound
              (<["error" := AStr "Endpoint not found"]>
               (<["code" := AInt StatusNotFound]>
                (<["path" := AStr (URLPath (Req c))]> ∅))) c).

(** [MethodNotAllowedHandler]. *)
Definition MethodNotAllowedHandler : HandlerFunc := fun c =>
  Returned (JSON StatusMethodNotAllowed
              (<["error" := AStr "Method not allowed"]>
               (<["code" := AInt StatusMethodNotAllowed]>
                (<["method" := AStr (Method (Req c))]>
                 (<["path" := AStr (URLPath (Req c))]> ∅)))) c).

End handler.

(** ** cmd/server: the router that [main] builds *)
Module router.
Import GoString errors zerolog gin middleware handler.

(** A route binding: method, path pattern and the handlers of the route
    (the middlewares in force where it was registered, then its handler). *)
Record Route : Type := mkRoute {
  routeMethod : string;
  routePattern : string;
  routeHandlers : HandlerFunc
}.

(** Matching a path against a pattern, segment by segment: a pattern segment
    that starts with a colon is a parameter and takes any non-empty segment. *)
Definition segmentMatches (pat seg : string) : bool :=
  match pat with
  | String ":" _ => negb (bool_decide (seg = ""))
  | _ => bool_decide (pat = seg)
  end.

Fixpoint segmentsMatch (pats segs : list string) : bool :=
  match pats, segs with
  | [], [] => true
  | p :: pats, s :: segs => segmentMatches p s && segmentsMatch pats segs
  | _, _ => false
  end.

Definition pathMatches (pattern path : string) : bool :=
  segmentsMatch (Split pattern "/") (Split path "/").

(** [gin.Engine]: the two switches that decide what happens to a request
    without a matching route, the routes, and the handlers registered with
    [NoRoute] and [NoMethod] (behind the global middlewares). *)
Record Engine : Type := mkEngine {
  RedirectTrailingSlash : bool;
  HandleMethodNotAllowed : bool;
  routes : list Route;
  allNoRoute : HandlerFunc;
  allNoMethod : HandlerFunc
}.

(** [gin.New()]: trailing-slash redirection on, method-not-allowed handling
    off, nothing registered. *)
Definition New : Engine :=
  mkEngine true false [] (fun c => Returned c) (fun c => Returned c).

Definition lookup (e : Engine) (method path : string) : option Route :=
  List.find (fun r => bool_decide (routeMethod r = method) && pathMatches (routePattern r) path)
            (routes e).

(** The path [redirectTrailingSlash] sends the client to: the trailing slash
    removed if there is one (and the path is longer than the slash alone),
    added otherwise. *)
Definition toggleSlash (path : string) : string :=
  if (1 <? String.length path)%nat
     && bool_decide (String.get (String.length path - 1)%nat path = Some "/"%char)
  then String.substring 0 (String.length path - 1)%nat path
  else path +:+ "/".

(** What the engine decides for a request, before any handler runs. *)
Inductive Dispatch : Type :=
| ToRoute (r : Route)
| ToRedirect (location : string)
| ToNoMethod
| ToNoRoute.

(** The decision of [Engine.handleHTTPRequest]. *)
Definition decide_ (e : Engine) (method path : string) : Dispatch :=
  match lookup e method path with
  | Some r => ToRoute r
  | None =>
      if negb (bool_decide (method = "CONNECT")) && negb (bool_decide (path = "/"))
         && RedirectTrailingSlash e
         && bool_decide (is_Some (lookup e method (toggleSlash path)))
      then ToRedirect (toggleSlash path)
      else if HandleMethodNotAllowed e
              && existsb (fun r => negb (bool_decide (routeMethod r = method))
                                   && pathMatches (routePattern r) path) (routes e)
      then ToNoMethod
      else ToNoRoute
  end.

(** gin's [serveError]: the status is preset, the handlers run, and the
    default text is written only if they wrote nothing and left the status. *)
Definition serveError (code : Z) (defaultMessage : string) (handlers : HandlerFunc)
    (c : Ctx) : Outcome :=
  let w := Writer c in
  let c := withWriter (mkWriter code (written w) (wheader w) (body w)) c in
  match handlers c with
  | Panicked v stack c => Panicked v stack c
  | Returned c =>
      if Written (Writer c) then Returned c
      else if status (Writer c) =? code then
        Returned (withWriter (Write (RawBody defaultMessage)
                                (SetHeader "Content-Type" "text/plain" (Writer c))) c)
      else Returned (withWriter (WriteHeaderNow (Writer c)) c)
  end.

(** [Engine.handleHTTPRequest] on a fresh context. *)
Definition handleHTTPRequest (e : Engine) (c : Ctx) : Outcome :=
  match decide_ e (Method (Req c)) (URLPath (Req c)) with
  | ToRoute r =>
      match routeHandlers r c with
      | Panicked v stack c => Panicked v stack c
      | Returned c => Returned (withWriter (WriteHeaderNow (Writer c)) c)
      end
  | ToRedirect location =>
      let rURL := if decide (RawQuery (Req c) = "") then location
                  else location +:+ "?" +:+ RawQuery (Req c) in
      let isGet := bool_decide (Method (Req c) = "GET") in
      let code := if isGet then 301 else 307 in
      let w := SetHeader "Location" rURL (Writer c) in
      let w := if isGet then writeContentType "text/html; charset=utf-8" w else w in
      let w := WriteHeaderNow (WriteHeader code w) in
      let w := if isGet then Write (RedirectNote rURL) w else w in
      Returned (withWriter w c)
  | ToNoMethod => serveError StatusMethodNotAllowed "405 method not allowed" (allNoMethod e) c
  | ToNoRoute => serveError StatusNotFound "404 page not found" (allNoRoute e) c
  end.

(** The wiring of [main].  [cors] is the middleware of gin-contrib/cors;
    [authProxy] and [productsProxy] are the two service proxies. *)
Definition gateway (cors : Middleware) (jwtSecret : string)
    (authProxy productsProxy : ServiceProxy) : Engine :=
  let global := [RecoveryMiddleware; RequestIDMiddleware; LoggingMiddleware; cors] in
  let protected := global ++ [AuthMiddleware jwtSecret] in
  mkEngine (RedirectTrailingSlash New) (HandleMethodNotAllowed New)
    [ mkRoute "GET" "/health" (chain global HealthCheck);
      mkRoute "POST" "/api/v1/auth/register" (chain global (Handler authProxy));
      mkRoute "POST" "/api/v1/auth/login" (chain global (Handler authProxy));
      mkRoute "GET" "/api/v1/products" (chain protected (Handler productsProxy));
      mkRoute "GET" "/api/v1/products/:id" (chain protected (Handler productsProxy));
      mkRoute "POST" "/api/v1/products" (chain protected (Handler productsProxy));
      mkRoute "PUT" "/api/v1/products/:id" (chain protected (Handler productsProxy));
      mkRoute "DELETE" "/api/v1/products/:id" (chain protected (Handler productsProxy)) ]
    (chain global NotFoundHandler)
    (chain global MethodNotAllowedHandler).

(** A CORS middleware on a request without an [Origin] header: it does
    nothing and the chain goes on. *)
Definition corsNoOrigin : Middleware := fun next c => next c.

End router.

(** ** Notions the properties are stated with *)
Module notions.
Import GoString errors zerolog gin.

(** The header has the form [Bearer <token>]: the word, one space, and a
    token without a space. *)
Definition BearerForm (header tokenString : string) : Prop :=
  header = "Bearer " +:+ tokenString ∧ contains tokenString " " = false.

(** Nothing has been sent to the client yet. *)
Definition Fresh (w : ResponseWriter) : Prop := written w = false ∧ body w = [].

(** The response so far is the status [code] with one JSON object as its
    body, and its header has been sent. *)
Definition RespondsJSON (c : Ctx) (code : Z) (obj : gmap string any) : Prop :=
  status (Writer c) = code ∧ body (Writer c) = [JSONBody obj] ∧ written (Writer c) = true.



(** The status codes of the error taxonomy. *)
Definition taxonomy : list Z := [400; 401; 404; 405; 500].

(** The error responses that the gateway itself produces for a request [r]:
    status and JSON object.  They are built from fixed texts, the status,
    and the path and method of the request, and from nothing else. *)
Definition gatewayErrors (r : Request) : list (Z * gmap string any) :=
  [ (401, middleware.envelope "Authorization header required" 401);
    (401, middleware.envelope "Invalid authorization header format" 401);
    (401, middleware.envelope "Invalid or expired token" 401);
    (404, <["error" := AStr "Endpoint not found"]>
            (<["code" := AInt 404]> (<["path" := AStr (URLPath r)]> ∅)));
    (405, <["error" := AStr "Method not allowed"]>
            (<["code" := AInt 405]>
               (<["method" := AStr (Method r)]> (<["path" := AStr (URLPath r)]> ∅))));
    (500, middleware.envelope "Internal server error" 500);
    (500, middleware.envelope "Service unavailable" 500) ].

(** An Error Envelope for the status [code]: an [error] text, a [code]
    that is the status, a status of the taxonomy, and no key besides
    [error], [code], [details], [path] and [method]. *)
Definition IsErrorEnvelope (code : Z) (obj : gmap string any) : Prop :=
  code ∈ taxonomy ∧
  obj !! "code" = Some (AInt code) ∧
  (∃ text, obj !! "error" = Some (AStr text)) ∧
  dom obj ⊆ ({[ "error"; "code"; "details"; "path"; "method" ]} : gset string).

End notions.

(** ** Concrete requests *)
Module examples.
Import gin.

Definition rand0 : nat → ascii := fun _ => "a"%char.

Definition request (method path : string) (headers : gmap string (list string)) : Request :=
  mkRequest method path "" headers "203.0.113.7".

(** [GET /api/v1/products/123] with [Authorization: Bearer abc]. *)
Definition ctx_short_token : Ctx :=
  newCtx (request "GET" "/api/v1/products/123" {[ "Authorization" := ["Bearer abc"] ]}) 0 rand0 [].

(** The same request with a token of twelve bytes. *)
Definition ctx_long_token : Ctx :=
  newCtx (request "GET" "/api/v1/products/123" {[ "Authorization" := ["Bearer abcdefghijkl"] ]})
         0 rand0 [].

(** The same request with the header present and empty ([Authorization:]). *)
Definition ctx_empty_header : Ctx :=
  newCtx (request "GET" "/api/v1/products/123" {[ "Authorization" := [""] ]}) 0 rand0 [].

(** The same request with a header of another scheme. *)
Definition ctx_basic_header : Ctx :=
  newCtx (request "GET" "/api/v1/products/123" {[ "Authorization" := ["Basic dXNlcg=="] ]})
         0 rand0 [].

(** A handler that panics at once, having written nothing. *)
Definition panicking : HandlerFunc := fun c => Panicked (AStr "boom") "goroutine 1 [running]" c.

(** [GET /health] on a fresh context. *)
Definition ctx_health : Ctx := newCtx (request "GET" "/health" ∅) 0 rand0 [].

(** [DELETE /health]: the path has a route, under GET only. *)
Definition ctx_delete_health : Ctx := newCtx (request "DELETE" "/health" ∅) 0 rand0 [].

(** [GET /nope]: no route has this path. *)
Definition ctx_nope : Ctx := newCtx (request "GET" "/nope" ∅) 0 rand0 [].

(** A products backend at [http://products:8082] with a timeout of five
    seconds, and three networks: one that never answers, one that answers
    503 with a body after one second, one that answers 200. *)
Definition seconds (n : Z) : Z := n * 1000000000.

Definition productsURL : string := "http://products:8082".

Definition silentNetwork : Request → httputil.Exchange := fun _ => httputil.Silent.

Definition unavailable (r : Request) : httputil.Response :=
  httputil.mkResponse 503 "503 Service Unavailable"
    (httputil.mkBody "upstream overloaded" None) r.

Definition failingNetwork : Request → httputil.Exchange :=
  fun r => httputil.Answers (seconds 1) (unavailable r).


(** A network that answers 502 after one second with a body that breaks. *)
Definition brokenErrorNetwork : Request → httputil.Exchange :=
  fun r => httputil.Answers (seconds 1)
             (httputil.mkResponse 502 "502 Bad Gateway"
                (httputil.mkBody "upstr" (Some "unexpected EOF")) r).

(** For the examples: an inbound request without a query or headers that the
    library would rewrite, and an upstream that never switches protocols. *)
Definition sameQueryAndHeaders : Request → string * gmap string (list string) :=
  fun r => (RawQuery r, Header r).

Definition noUpgrade : Request → httputil.Response → Ctx → Outcome :=
  fun _ _ c => Returned c.

Definition products (network : Request → httputil.Exchange) : handler.ServiceProxy :=
  handler.mkServiceProxy productsURL
    (httputil.mkReverseProxy "" network
       (handler.proxyErrorHandler productsURL) (handler.proxyModifyResponse productsURL)
       sameQueryAndHeaders noUpgrade)
    (seconds 5).

End examples.

(** * Properties *)

Import GoString errors zerolog gin token middleware notions.

(** ** Strings: what [Split] on a space says about a header *)

Lemma Split_nonempty (s : string) (sep : ascii) : Split s sep ≠ [].
Proof.
  induction s as [|c rest IH]; simpl; [done|].
  destruct (Ascii.eqb c sep); [done|].
  destruct (Split rest sep); done.
Qed.

Lemma Split_without_sep (s : string) (sep : ascii) :
  contains s sep = false → Split s sep = [s].
Proof.
  induction s as [|c rest IH]; simpl; [done|].
  intros [Hc Hrest]%orb_false_iff.
  rewrite Hc, (IH Hrest). done.
Qed.

Lemma Split_two (s a b : string) (sep : ascii) :
  Split s sep = [a; b] →
  s = a +:+ String sep b ∧ contains a sep = false ∧ contains b sep = false.
Proof.
  revert a. induction s as [|c rest IH]; intros a; simpl; [done|].
  destruct (Ascii.eqb c sep) eqn:Hc.
  - apply Ascii.eqb_eq in Hc as ->. intros [= <- Hrest].
    assert (contains rest sep = false) as Hno.
    { clear IH. revert b Hrest. induction rest as [|d rest IH]; intros b; simpl; [done|].
      destruct (Ascii.eqb d sep) eqn:Hd.
      - intros [= _ Hnil]. by destruct (Split_nonempty rest sep).
      - destruct (Split rest sep) as [|p [|q ps]] eqn:Hs; intros [= <-].
        + by destruct (Split_nonempty rest sep).
        + simpl. eauto. }
    rewrite (Split_without_sep _ _ Hno) in Hrest. injection Hrest as <-. done.
  - destruct (Split rest sep) as [|p ps] eqn:Hs; [done|].
    intros [= <- ->]. destruct (IH p eq_refl) as (-> & Ha & Hb).
    split_and!; [done| |done]. simpl. by rewrite Hc, Ha.
Qed.

Lemma Split_joined (a b : string) (sep : ascii) :
  contains a sep = false → contains b sep = false →
  Split (a +:+ String sep b) sep = [a; b].
Proof.
  intros Ha Hb. induction a as [|c a IH]; simpl in *.
  - unfold String.app. simpl. rewrite Ascii.eqb_refl. by rewrite Split_without_sep.
  - apply orb_false_iff in Ha as [Hc Ha].
    change (String c a +:+ String sep b) with (String c (a +:+ String sep b)).
    simpl. rewrite Hc, (IH Ha). done.
Qed.

(** The test of [AuthMiddleware] on the split header accepts exactly the
    headers of that form. *)
Lemma Split_Bearer_iff (header : string) :
  (length (Split header " ") = 2%nat ∧ Split header " " !! 0%nat = Some "Bearer")
  ↔ ∃ tokenString, BearerForm header tokenString.
Proof.
  split.
  - intros [Hlen Hhd]. destruct (Split header " ") as [|a [|b [|? ?]]] eqn:Hs; try done.
    simpl in Hhd. injection Hhd as ->.
    apply Split_two in Hs as (-> & _ & Hb). by exists b.
  - intros (t & -> & Ht).
    change ("Bearer " +:+ t) with ("Bearer" +:+ String " " t).
    rewrite Split_joined; done.
Qed.

Lemma Split_BearerForm (header tokenString : string) :
  BearerForm header tokenString → Split header " " = ["Bearer"; tokenString].
Proof.
  intros [-> Ht]. change ("Bearer " +:+ tokenString) with ("Bearer" +:+ String " " tokenString).
  by apply Split_joined.
Qed.

(** ** Token validation *)

Lemma slice_to_in_bounds (s : string) (hi : nat) :
  (hi ≤ String.length s)%nat → slice_to s hi = Some (String.substring 0 hi s).
Proof.
  intros Hle. unfold slice_to.
  destruct (hi <=? String.length s)%nat eqn:Hb; [done|].
  apply Nat.leb_gt in Hb. lia.
Qed.

Lemma validateToken_short (pcs : StackTrace) (tokenString jwtSecret : string) :
  len tokenString < 10 →
  ∃ err, validateToken pcs tokenString jwtSecret = Returns ("", Some err).
Proof.
  intros Hshort. unfold validateToken.
  destruct (decide (tokenString = "")); [eauto|].
  assert ((len tokenString <? 10) = true) as -> by lia. eauto.
Qed.

Lemma validateToken_long (pcs : StackTrace) (tokenString jwtSecret : string) :
  10 ≤ len tokenString →
  validateToken pcs tokenString jwtSecret =
    Returns ("user-" +:+ String.substring 0 8 tokenString, None).
Proof.
  intros Hlong. unfold validateToken.
  destruct (decide (tokenString = "")) as [->|_]; [unfold len in Hlong; simpl in Hlong; lia|].
  assert ((len tokenString <? 10) = false) as -> by lia.
  rewrite slice_to_in_bounds; [done|]. unfold len in Hlong. lia.
Qed.

(** ** C10: [validateToken] never panics *)

(** C10.  For every token string, [validateToken] returns (it never panics),
    and it derives a principal id, by slicing off the first 8 bytes, only
    from tokens of at least 10 bytes, for which that slice is within
    bounds. *)
Theorem validateToken_never_panics (pcs : StackTrace) (tokenString jwtSecret : string) :
  (∃ r, validateToken pcs tokenString jwtSecret = Returns r) ∧
  (∀ userID, validateToken pcs tokenString jwtSecret = Returns (userID, None) →
     10 ≤ len tokenString ∧
     slice_to tokenString 8 = Some (String.substring 0 8 tokenString) ∧
     userID = "user-" +:+ String.substring 0 8 tokenString).
Proof.
  destruct (Z.lt_ge_cases (len tokenString) 10) as [Hshort|Hlong].
  - destruct (validateToken_short pcs tokenString jwtSecret Hshort) as [err Herr].
    rewrite Herr. split; [eauto|done].
  - rewrite (validateToken_long pcs tokenString jwtSecret Hlong). split; [eauto|].
    intros userID [= <-]. split_and!; [done| |done].
    apply slice_to_in_bounds. unfold len in Hlong. lia.
Qed.

(** ** The response writer *)

Lemma JSON_on_fresh (code : Z) (obj : gmap string any) (c : Ctx) :
  Fresh (Writer c) → 0 < code → bodyAllowedForStatus code = true →
  RespondsJSON (JSON code obj c) code obj.
Proof.
  intros [Hw Hb] Hpos Hallowed. unfold RespondsJSON, JSON. rewrite Hallowed.
  unfold WriteHeader, Written. rewrite Hw.
  assert ((0 <? code) = true) as -> by lia. simpl.
  destruct (status (Writer c) =? code) eqn:Hs; simpl;
    unfold writeContentType; simpl;
    destruct (wheader (Writer c) !! "Content-Type"); simpl;
    unfold Write, WriteHeaderNow, Written; simpl; rewrite ?Hw; simpl; rewrite ?Hb;
    split_and!; try done; lia.
Qed.

Lemma JSON_frame (code : Z) (obj : gmap string any) (c : Ctx) :
  Req (JSON code obj c) = Req c ∧ Log (JSON code obj c) = Log c ∧
  Sent (JSON code obj c) = Sent c ∧ Keys (JSON code obj c) = Keys c ∧
  aborted (JSON code obj c) = aborted c ∧ Now (JSON code obj c) = Now c.
Proof. unfold JSON. by destruct (bodyAllowedForStatus code). Qed.

(** ** C4: the Auth Gate on a missing or malformed header *)

(** C4 (as amended).  On a protected path, with nothing written yet: when
    the Authorization header is absent or its value is empty the response
    is 401 with the message "Authorization header required"; when its value
    is not empty and not of the form [Bearer <token>] the response is 401
    with "Invalid authorization header format".  In both cases the chain is
    aborted, nothing is sent upstream, and the rest of the chain is not
    run (the result is the same whatever the rest of the chain is). *)
Theorem AuthMiddleware_rejects_bad_header
    (jwtSecret : string) (next : HandlerFunc) (c : Ctx) :
  isPublicEndpoint (URLPath (Req c)) = false →
  Fresh (Writer c) →
  (¬ ∃ tokenString, BearerForm (GetHeader "Authorization" c) tokenString) →
  (Header (Req c) !! "Authorization" = None → GetHeader "Authorization" c = "") ∧
  ∃ c', AuthMiddleware jwtSecret next c = Returned c' ∧
        RespondsJSON c' 401
          (envelope (if decide (GetHeader "Authorization" c = "")
                     then "Authorization header required"
                     else "Invalid authorization header format") 401) ∧
        aborted c' = true ∧ Sent c' = Sent c ∧
        ∀ next', AuthMiddleware jwtSecret next' c = Returned c'.
Proof.
  intros Hprot Hfresh Hform. split.
  { intros Habs. unfold GetHeader, Header_Get. by rewrite Habs. }
  unfold AuthMiddleware. rewrite Hprot.
  destruct (decide (GetHeader "Authorization" c = "")) as [He|Hne].
  - eexists. split; [done|].
    split; [by apply JSON_on_fresh|]. split; [done|]. split; [|done].
    apply (JSON_frame _ _ c).
  - destruct (negb (length (Split (GetHeader "Authorization" c) " ") =? 2)%nat
              || negb (bool_decide (Split (GetHeader "Authorization" c) " " !! 0%nat
                                    = Some "Bearer"))) eqn:Htest.
    + eexists. split; [done|].
      split; [by apply JSON_on_fresh|]. split; [done|]. split; [|done].
      apply (JSON_frame _ _ c).
    + exfalso. apply Hform, Split_Bearer_iff.
      apply orb_false_iff in Htest as [H1 H2].
      apply negb_false_iff in H1, H2.
      apply Nat.eqb_eq in H1. apply bool_decide_eq_true in H2. done.
Qed.

Lemma AuthMiddleware_rejects_bad_header_witness :
  ∃ c', AuthMiddleware "secret" Returned examples.ctx_basic_header = Returned c' ∧
        RespondsJSON c' 401 (envelope "Invalid authorization header format" 401) ∧
        aborted c' = true ∧ Sent c' = [].
Proof.
  destruct (AuthMiddleware_rejects_bad_header "secret" Returned examples.ctx_basic_header)
    as (_ & c' & Hrun & Hresp & Hab & Hsent & _).
  - reflexivity.
  - split; reflexivity.
  - intros (t & Heq & _). vm_compute in Heq. discriminate Heq.
  - exists c'. split_and!; done.
Defined.

(** C4 as stated fails when the header is present with an empty value: the
    header is there, it is not of the form [Bearer <token>], and the
    response carries "Authorization header required", not "Invalid
    authorization header format". *)
Lemma AuthMiddleware_empty_header_counterexample :
  isPublicEndpoint (URLPath (Req examples.ctx_empty_header)) = false ∧
  Header (Req examples.ctx_empty_header) !! "Authorization" = Some [""] ∧
  (¬ ∃ tokenString,
       BearerForm (GetHeader "Authorization" examples.ctx_empty_header) tokenString) ∧
  RespondsJSON (ctxOf (AuthMiddleware "secret" Returned examples.ctx_empty_header)) 401
    (envelope "Authorization header required" 401) ∧
  ¬ RespondsJSON (ctxOf (AuthMiddleware "secret" Returned examples.ctx_empty_header)) 401
      (envelope "Invalid authorization header format" 401).
Proof.
  split_and!.
  - reflexivity.
  - reflexivity.
  - intros (t & Heq & _). vm_compute in Heq. discriminate Heq.
  - split_and!; reflexivity.
  - intros (_ & Hbody & _). vm_compute in Hbody. discriminate Hbody.
Qed.

(** ** C5: the Auth Gate on a well-formed header *)

(** C5.  On a protected path, with nothing written yet and a header of the
    form [Bearer <token>]: a token shorter than 10 bytes (the empty token
    included) is answered with 401 "Invalid or expired token", one
    warning-level log event with the path is emitted, the chain is aborted
    and nothing is sent upstream; any other token is admitted: the
    principal id ["user-"] followed by the first 8 bytes of the token is
    stored under [user_id] and the rest of the chain runs on that context. *)
Theorem AuthMiddleware_validates_token
    (jwtSecret : string) (next : HandlerFunc) (c : Ctx) (tokenString : string) :
  isPublicEndpoint (URLPath (Req c)) = false →
  Fresh (Writer c) →
  BearerForm (GetHeader "Authorization" c) tokenString →
  (len tokenString < 10 →
     ∃ c', AuthMiddleware jwtSecret next c = Returned c' ∧
           RespondsJSON c' 401 (envelope "Invalid or expired token" 401) ∧
           Log c' = Log c ++ [Msg "Invalid token"
                                (Str "path" (URLPath (Req c)) (newEvent WarnLevel))] ∧
           aborted c' = true ∧ Sent c' = Sent c ∧
           ∀ next', AuthMiddleware jwtSecret next' c = Returned c') ∧
  (10 ≤ len tokenString →
     AuthMiddleware jwtSecret next c =
       next (Set_ "user_id" (AStr ("user-" +:+ String.substring 0 8 tokenString)) c)).
Proof.
  intros Hprot Hfresh Hform.
  assert (GetHeader "Authorization" c ≠ "") as Hne.
  { destruct Hform as [-> _]. done. }
  assert (∀ next0, AuthMiddleware jwtSecret next0 c =
            match validateToken (Callers c) tokenString jwtSecret with
            | Panics reason => Panicked (AStr reason) "" c
            | Returns (_, Some _) =>
                Returned (Abort (JSON StatusUnauthorized
                  (envelope "Invalid or expired token" StatusUnauthorized)
                  (emit (Msg "Invalid token" (Str "path" (URLPath (Req c)) (newEvent WarnLevel))) c)))
            | Returns (userID, None) => next0 (Set_ "user_id" (AStr userID) c)
            end) as Hrun.
  { intros next0. unfold AuthMiddleware. rewrite Hprot.
    destruct (decide (GetHeader "Authorization" c = "")); [done|].
    rewrite (Split_BearerForm _ _ Hform). simpl. done. }
  split.
  - intros Hshort.
    destruct (validateToken_short (Callers c) tokenString jwtSecret Hshort) as [err Herr].
    eexists. split; [by rewrite Hrun, Herr|].
    split; [by apply JSON_on_fresh|]. split; [done|]. split; [done|]. split; [done|].
    intros next'. by rewrite Hrun, Herr.
  - intros Hlong. by rewrite Hrun, validateToken_long.
Qed.

Lemma AuthMiddleware_validates_token_witness :
  (∃ c', AuthMiddleware "secret" Returned examples.ctx_short_token = Returned c' ∧
         RespondsJSON c' 401 (envelope "Invalid or expired token" 401) ∧
         aborted c' = true ∧ Sent c' = []) ∧
  AuthMiddleware "secret" Returned examples.ctx_long_token =
    Returned (Set_ "user_id" (AStr "user-abcdefgh") examples.ctx_long_token).
Proof.
  split.
  - destruct (AuthMiddleware_validates_token "secret" Returned examples.ctx_short_token "abc")
      as [Hshort _]; [reflexivity|split; reflexivity|split; reflexivity|].
    destruct Hshort as (c' & Hrun & Hresp & _ & Hab & Hsent & _); [vm_compute; reflexivity|].
    exists c'. split_and!; done.
  - destruct (AuthMiddleware_validates_token "secret" Returned examples.ctx_long_token
                "abcdefghijkl")
      as [_ Hlong]; [reflexivity|split; reflexivity|split; reflexivity|].
    apply Hlong. vm_compute. discriminate.
Defined.

(** ** The Correlation Stamper *)

Lemma decode_encode (b : ascii) :
  uuid.decodeByte (uuid.hexDigit (N.shiftr (N_of_ascii b) 4))
                  (uuid.hexDigit (N.land (N_of_ascii b) 15)) = Some b.
Proof. destruct b as [[] [] [] [] [] [] [] []]; vm_compute; reflexivity. Qed.

Lemma encodeByte_inj (a b : ascii) : uuid.encodeByte a = uuid.encodeByte b → a = b.
Proof.
  unfold uuid.encodeByte. intros [= Hhi Hlo].
  pose proof (decode_encode a) as Ha. rewrite Hhi, Hlo, decode_encode in Ha.
  by injection Ha.
Qed.

Lemma string_app_length (s t : string) :
  String.length (s +:+ t) = (String.length s + String.length t)%nat.
Proof. induction s as [|c s IH]; [done|]. unfold String.app in *. simpl. by rewrite IH. Qed.

Lemma string_app_inj_length (s1 s2 t1 t2 : string) :
  String.length s1 = String.length s2 → s1 +:+ t1 = s2 +:+ t2 → s1 = s2 ∧ t1 = t2.
Proof.
  revert s2. induction s1 as [|c s1 IH]; intros [|d s2] Hlen Heq; try done.
  unfold String.app in Heq. simpl in Heq. injection Heq as -> Heq.
  injection Hlen as Hlen. destruct (IH s2 Hlen Heq) as [-> ->]. done.
Qed.

Lemma hexEncode_length (bs : list ascii) :
  String.length (uuid.hexEncode bs) = (2 * length bs)%nat.
Proof.
  induction bs as [|b bs IH]; [done|].
  simpl. rewrite string_app_length, IH. simpl. lia.
Qed.

Lemma hexEncode_inj (u v : list ascii) :
  length u = length v → uuid.hexEncode u = uuid.hexEncode v → u = v.
Proof.
  revert v. induction u as [|a u IH]; intros [|b v] Hlen Heq; try done.
  simpl in Heq. apply string_app_inj_length in Heq as [Hab Hrest]; [|done].
  apply encodeByte_inj in Hab as ->. injection Hlen as Hlen. by rewrite (IH v).
Qed.

Lemma UUID_String_length (u : uuid.UUID) :
  String.length (uuid.String_ u) = (2 * length u + 4)%nat.
Proof.
  unfold uuid.String_. rewrite !string_app_length, !hexEncode_length.
  rewrite !length_take, !length_drop. cbn [String.length]. lia.
Qed.

(** The text of a UUID determines its bytes. *)
Lemma UUID_String_inj (u v : uuid.UUID) :
  length u = length v → uuid.String_ u = uuid.String_ v → u = v.
Proof.
  intros Hlen. unfold uuid.String_. intros Heq.
  repeat match type of Heq with
  | _ +:+ _ = _ +:+ _ =>
      apply string_app_inj_length in Heq as [? Heq];
      [| rewrite ?hexEncode_length, ?length_take, ?length_drop; lia ]
  end.
  repeat match goal with
  | H : uuid.hexEncode _ = uuid.hexEncode _ |- _ =>
      apply hexEncode_inj in H; [| rewrite ?length_take, ?length_drop; lia ]
  end.
  rewrite <- (take_drop 4 u), <- (take_drop 4 v). f_equal; [done|].
  rewrite <- (take_drop 2 (drop 4 u)), <- (take_drop 2 (drop 4 v)). f_equal; [done|].
  rewrite !drop_drop. simpl.
  rewrite <- (take_drop 2 (drop 6 u)), <- (take_drop 2 (drop 6 v)). f_equal; [done|].
  rewrite !drop_drop. simpl.
  rewrite <- (take_drop 2 (drop 8 u)), <- (take_drop 2 (drop 8 v)). f_equal; [done|].
  rewrite !drop_drop. simpl. done.
Qed.

Lemma NewRandom_length (rand : nat → ascii) (pos : nat) :
  length (uuid.NewRandom rand pos) = 16%nat.
Proof. unfold uuid.NewRandom, uuid.readRandom. by rewrite !length_alter, length_map, length_seq. Qed.

(** The Correlation Stamper hands to the rest of the chain a context in
    which the response header [X-Request-ID] and the context key
    [request_id] both hold the same identifier: the inbound [X-Request-ID]
    value when it is not empty, otherwise the text of a freshly drawn
    version-4 UUID, which is 36 bytes long and so not empty.  The text of a
    UUID determines its bytes: two requests without a supplied id get the
    same generated id exactly when their random draws give the same UUID.
    (How often that happens is a matter of the random source; it is not
    stated here.) *)
Theorem RequestIDMiddleware_stamps (next : HandlerFunc) (c : Ctx) :
  ∃ id c1,
    RequestIDMiddleware next c = next c1 ∧
    wheader (Writer c1) !! "X-Request-ID" = Some id ∧
    Keys c1 !! "request_id" = Some (AStr id) ∧
    GetString "request_id" c1 = id ∧
    id ≠ "" ∧
    (GetHeader "X-Request-ID" c ≠ "" → id = GetHeader "X-Request-ID" c) ∧
    (GetHeader "X-Request-ID" c = "" →
       id = uuid.String_ (uuid.NewRandom (Rand c) (RandPos c)) ∧
       String.length id = 36%nat ∧
       ∀ c' id',
         id' = uuid.String_ (uuid.NewRandom (Rand c') (RandPos c')) →
         (id = id' ↔ uuid.NewRandom (Rand c) (RandPos c) = uuid.NewRandom (Rand c') (RandPos c'))).
Proof.
  unfold RequestIDMiddleware.
  destruct (decide (GetHeader "X-Request-ID" c = "")) as [He|Hne].
  - set (id := uuid.String_ (uuid.NewRandom (Rand c) (RandPos c))).
    assert (String.length id = 36%nat) as Hlen.
    { unfold id. by rewrite UUID_String_length, NewRandom_length. }
    assert (id ≠ "") as Hid by (intros Hid; by rewrite Hid in Hlen).
    exists id. eexists. split; [done|].
    unfold SetRespHeader. destruct (decide (id = "")); [done|].
    unfold GetString. simpl. rewrite !lookup_insert_eq.
    split_and!; try done.
    intros _. split_and!; try done.
    intros c' id' ->. unfold id. split; [|by intros ->].
    apply UUID_String_inj. by rewrite !NewRandom_length.
  - exists (GetHeader "X-Request-ID" c). eexists. split; [done|].
    unfold SetRespHeader. destruct (decide (GetHeader "X-Request-ID" c = "")); [done|].
    unfold GetString. simpl. rewrite !lookup_insert_eq.
    split_and!; done.
Qed.

Import util httputil handler router.

(** ** C9: the Access Logger *)

Lemma Interface_fields (key : string) (v : any) (e : Event) :
  fields (Interface key v e) = <[key := v]> (fields e) ∧
  level (Interface key v e) = level e ∧ message (Interface key v e) = message e.
Proof. done. Qed.

(** C9 (as amended).  Whenever the rest of the chain returns (does not
    panic), the Access Logger appends exactly one event to the log after
    it, and changes nothing else: the event carries the method, the path
    (followed by [?] and the query string when there is one), the final
    status, the client address, the user agent, the elapsed time and the
    correlation id; its level is error when the final status is at least
    400 and info otherwise. *)
Theorem GinLogger_one_record (next : HandlerFunc) (c c' : Ctx) :
  next c = Returned c' →
  ∃ ev,
    GinLogger next c = Returned (emit ev c') ∧
    message ev = "HTTP request" ∧
    fields ev !! "method" = Some (AStr (Method (Req c'))) ∧
    fields ev !! "path" =
      Some (AStr (if decide (RawQuery (Req c) = "") then URLPath (Req c)
                  else URLPath (Req c) +:+ "?" +:+ RawQuery (Req c))) ∧
    fields ev !! "status" = Some (AInt (status (Writer c'))) ∧
    fields ev !! "ip" = Some (AStr (ClientIP c')) ∧
    fields ev !! "user_agent" = Some (AStr (UserAgent (Req c'))) ∧
    fields ev !! "latency" = Some (ADur (Now c' - Now c)) ∧
    fields ev !! "request_id" = Some (AStr (GetString "request_id" c')) ∧
    (level ev = ErrorLevel ↔ 400 ≤ status (Writer c')) ∧
    (level ev = InfoLevel ↔ status (Writer c') < 400).
Proof.
  intros Hnext. unfold GinLogger. rewrite Hnext. eexists. split; [done|].
  unfold Msg, Str, Int, Dur, Interface. simpl.
  split; [done|].
  repeat (split; [by simplify_map_eq|]).
  destruct (400 <=? status (Writer c')) eqn:Hs; simpl; split; split; try done; lia.
Qed.

Lemma GinLogger_one_record_witness :
  ∃ ev, GinLogger handler.HealthCheck examples.ctx_health
          = Returned (emit ev (ctxOf (handler.HealthCheck examples.ctx_health))) ∧
        message ev = "HTTP request" ∧ level ev = InfoLevel ∧
        fields ev !! "status" = Some (AInt 200).
Proof.
  destruct (GinLogger_one_record handler.HealthCheck examples.ctx_health
              (ctxOf (handler.HealthCheck examples.ctx_health)) eq_refl)
    as (ev & Hrun & Hmsg & _ & _ & Hstatus & _ & _ & _ & _ & _ & Hinfo).
  exists ev. split_and!; [done|done| |done].
  apply Hinfo. vm_compute. reflexivity.
Defined.

(** C9 as stated fails for a request whose handling panics: the statements
    of the Access Logger after [c.Next()] are skipped, so the log of the
    whole chain holds the record of the Panic Guard and no access record. *)
Lemma GinLogger_panic_counterexample :
  GinLogger examples.panicking examples.ctx_health
    = Panicked (AStr "boom") "goroutine 1 [running]" examples.ctx_health ∧
  ∃ c', chain [RecoveryMiddleware; RequestIDMiddleware; LoggingMiddleware] examples.panicking
          examples.ctx_health = Returned c' ∧
        message <$> Log c' = ["Panic recovered"].
Proof. split; [reflexivity|]. eexists. split; reflexivity. Qed.

(** ** C1: the Panic Guard *)

(** The status of gin's response writer starts at 200 and no operation of
    the writer makes it zero. *)
Lemma newWriter_status : status newWriter = 200.
Proof. reflexivity. Qed.

Lemma WriteHeader_status_nonzero (code : Z) (w : ResponseWriter) :
  status w ≠ 0 → status (WriteHeader code w) ≠ 0.
Proof.
  unfold WriteHeader. intros Hw.
  destruct (0 <? code) eqn:Hc; simpl; [|done].
  destruct (negb (status w =? code)); simpl; [|done].
  destruct (Written w); simpl; [done|lia].
Qed.

Lemma Writer_withWriter (w : ResponseWriter) (c : Ctx) : Writer (withWriter w c) = w.
Proof. reflexivity. Qed.

Lemma Write_status (data : Chunk) (w : ResponseWriter) : status (Write data w) = status w.
Proof. unfold Write, WriteHeaderNow. by destruct (Written w). Qed.

Lemma JSON_status_nonzero (code : Z) (obj : gmap string any) (c : Ctx) :
  status (Writer c) ≠ 0 → status (Writer (JSON code obj c)) ≠ 0.
Proof.
  intros Hw. unfold JSON.
  pose proof (WriteHeader_status_nonzero code (Writer c) Hw) as Hh.
  assert (status (writeContentType "application/json; charset=utf-8"
                    (WriteHeader code (Writer c))) ≠ 0) as Hct.
  { unfold writeContentType. by destruct (wheader _ !! "Content-Type"). }
  destruct (bodyAllowedForStatus code).
  - rewrite Writer_withWriter. by rewrite Write_status.
  - rewrite Writer_withWriter. unfold WriteHeaderNow. by destruct (Written _).
Qed.

(** What the Panic Guard does with a panic: it returns, having appended one
    error-level event with the fault, the stack, the path, the method, the
    client address and the user agent, and having aborted the chain; it
    writes the 500 envelope exactly when the writer's status is zero. *)
Lemma RecoveryMiddleware_on_panic (next : HandlerFunc) (c c' : Ctx) (v : any) (stack : string) :
  next c = Panicked v stack c' →
  ∃ ev,
    level ev = ErrorLevel ∧ message ev = "Panic recovered" ∧
    fields ev !! "error" = Some v ∧
    fields ev !! "stack" = Some (AStr stack) ∧
    fields ev !! "path" = Some (AStr (URLPath (Req c'))) ∧
    fields ev !! "method" = Some (AStr (Method (Req c'))) ∧
    fields ev !! "client_ip" = Some (AStr (ClientIP c')) ∧
    fields ev !! "user_agent" = Some (AStr (UserAgent (Req c'))) ∧
    RecoveryMiddleware next c =
      Returned (Abort (if status (Writer c') =? 0
                       then JSON 500 (envelope "Internal server error" 500) (emit ev c')
                       else emit ev c')).
Proof.
  intros Hnext. unfold RecoveryMiddleware. rewrite Hnext.
  exists (Msg "Panic recovered"
            (Str "user_agent" (UserAgent (Req c'))
               (Str "client_ip" (ClientIP c')
                  (Str "method" (Method (Req c'))
                     (Str "path" (URLPath (Req c'))
                        (Str "stack" stack (Interface "error" v (newEvent ErrorLevel)))))))).
  split; [done|]. split; [done|].
  unfold Msg, Str, Interface. simpl.
  repeat (split; [by simplify_map_eq|]).
  by destruct (status (Writer c') =? 0).
Qed.

Lemma RecoveryMiddleware_on_return (next : HandlerFunc) (c c' : Ctx) :
  next c = Returned c' → RecoveryMiddleware next c = Returned c'.
Proof. intros Hnext. unfold RecoveryMiddleware. by rewrite Hnext. Qed.

(** C1, at the failing input.  A handler panics on a fresh context, before
    anything is written.  The Panic Guard recovers and logs the fault, but
    the test [c.Writer.Status() == 0] fails, because the status of a fresh
    gin writer is 200: no envelope is written, and the response is left with
    status 200 and an empty body. *)
Theorem RecoveryMiddleware_fresh_panic_no_envelope :
  Fresh (Writer examples.ctx_health) ∧
  ∃ c', RecoveryMiddleware examples.panicking examples.ctx_health = Returned c' ∧
        message <$> Log c' = ["Panic recovered"] ∧
        level <$> Log c' = [ErrorLevel] ∧
        aborted c' = true ∧
        status (Writer c') = 200 ∧ body (Writer c') = [] ∧ Written (Writer c') = false ∧
        ¬ RespondsJSON c' 500 (envelope "Internal server error" 500).
Proof.
  split; [split; reflexivity|]. eexists. split; [reflexivity|].
  split_and!; try reflexivity.
  intros (Hs & _). vm_compute in Hs. discriminate Hs.
Qed.

(** The same for every handler and context: if the handler panics leaving a
    writer whose status is not zero, the Panic Guard leaves the response as
    the handler left it. *)
Lemma RecoveryMiddleware_leaves_response (next : HandlerFunc) (c c' : Ctx) (v : any) (stack : string) :
  next c = Panicked v stack c' → status (Writer c') ≠ 0 →
  ∃ c'', RecoveryMiddleware next c = Returned c'' ∧ Writer c'' = Writer c'.
Proof.
  intros Hnext Hs.
  destruct (RecoveryMiddleware_on_panic next c c' v stack Hnext) as (ev & _ & _ & _ & _ & _ & _ & _ & _ & Hrun).
  rewrite Hrun. eexists. split; [done|].
  assert ((status (Writer c') =? 0) = false) as -> by lia. done.
Qed.

(** ** C6: the fallback handlers *)

Lemma NotFoundHandler_response (c : Ctx) :
  Fresh (Writer c) →
  ∃ c' obj, NotFoundHandler c = Returned c' ∧ RespondsJSON c' 404 obj ∧
            obj !! "error" = Some (AStr "Endpoint not found") ∧
            obj !! "code" = Some (AInt 404) ∧
            obj !! "path" = Some (AStr (URLPath (Req c))).
Proof.
  intros Hfresh. unfold NotFoundHandler. eexists _, _. split; [done|].
  split; [by apply JSON_on_fresh|]. by simplify_map_eq.
Qed.

Lemma MethodNotAllowedHandler_response (c : Ctx) :
  Fresh (Writer c) →
  ∃ c' obj, MethodNotAllowedHandler c = Returned c' ∧ RespondsJSON c' 405 obj ∧
            obj !! "error" = Some (AStr "Method not allowed") ∧
            obj !! "code" = Some (AInt 405) ∧
            obj !! "method" = Some (AStr (Method (Req c))) ∧
            obj !! "path" = Some (AStr (URLPath (Req c))).
Proof.
  intros Hfresh. unfold MethodNotAllowedHandler. eexists _, _. split; [done|].
  split; [by apply JSON_on_fresh|]. by simplify_map_eq.
Qed.

(** The engine that [main] builds never hands a request to the handlers
    registered with [NoMethod]: [HandleMethodNotAllowed] keeps the value
    [gin.New()] gave it. *)
Lemma gateway_never_NoMethod (cors : Middleware) (jwtSecret : string)
    (authProxy productsProxy : ServiceProxy) (method path : string) :
  decide_ (gateway cors jwtSecret authProxy productsProxy) method path ≠ ToNoMethod.
Proof.
  unfold decide_.
  destruct (lookup _ method path); [done|].
  change (HandleMethodNotAllowed (gateway cors jwtSecret authProxy productsProxy)) with false.
  simpl. by destruct (_ && _).
Qed.

(** C6, at the failing input.  [/health] has a route, under GET.  For
    [DELETE /health] the engine runs the handlers registered with
    [NoRoute], and the response is the 404 envelope with the path: no 405,
    and the attempted method is not in the body.  ([GET /nope], which has
    no route under any method, gets the 404 envelope with its path.) *)
Theorem wrong_method_answered_404
    (jwtSecret : string) (authProxy productsProxy : ServiceProxy) :
  is_Some (lookup (gateway corsNoOrigin jwtSecret authProxy productsProxy) "GET" "/health") ∧
  decide_ (gateway corsNoOrigin jwtSecret authProxy productsProxy) "DELETE" "/health" = ToNoRoute ∧
  (∃ c' obj,
     handleHTTPRequest (gateway corsNoOrigin jwtSecret authProxy productsProxy)
       examples.ctx_delete_health = Returned c' ∧
     RespondsJSON c' 404 obj ∧
     obj !! "error" = Some (AStr "Endpoint not found") ∧
     obj !! "path" = Some (AStr "/health") ∧
     obj !! "method" = None) ∧
  (∃ c' obj,
     handleHTTPRequest (gateway corsNoOrigin jwtSecret authProxy productsProxy)
       examples.ctx_nope = Returned c' ∧
     RespondsJSON c' 404 obj ∧
     obj !! "code" = Some (AInt 404) ∧
     obj !! "path" = Some (AStr "/nope")).
Proof.
  set (gw := gateway corsNoOrigin jwtSecret authProxy productsProxy).
  set (fallback := chain [RecoveryMiddleware; RequestIDMiddleware; LoggingMiddleware;
                          corsNoOrigin] NotFoundHandler).
  assert (decide_ gw "DELETE" "/health" = ToNoRoute) as Hdelete by (vm_compute; reflexivity).
  assert (decide_ gw "GET" "/nope" = ToNoRoute) as Hnope by (vm_compute; reflexivity).
  assert (handleHTTPRequest gw examples.ctx_delete_health
          = serveError 404 "404 page not found" fallback examples.ctx_delete_health) as Hrun1.
  { unfold handleHTTPRequest.
    change (decide_ gw (Method (Req examples.ctx_delete_health))
                       (URLPath (Req examples.ctx_delete_health)))
      with (decide_ gw "DELETE" "/health").
    by rewrite Hdelete. }
  assert (handleHTTPRequest gw examples.ctx_nope
          = serveError 404 "404 page not found" fallback examples.ctx_nope) as Hrun2.
  { unfold handleHTTPRequest.
    change (decide_ gw (Method (Req examples.ctx_nope)) (URLPath (Req examples.ctx_nope)))
      with (decide_ gw "GET" "/nope").
    by rewrite Hnope. }
  split_and!.
  - exists (mkRoute "GET" "/health"
              (chain [RecoveryMiddleware; RequestIDMiddleware; LoggingMiddleware; corsNoOrigin]
                     HealthCheck)).
    unfold lookup, gw, gateway. cbn [routes List.find routeMethod routePattern].
    assert ((bool_decide ("GET" = "GET") && pathMatches "/health" "/health") = true) as ->
      by (vm_compute; reflexivity).
    reflexivity.
  - exact Hdelete.
  - exists (ctxOf (serveError 404 "404 page not found" fallback examples.ctx_delete_health)),
           (<["error" := AStr "Endpoint not found"]>
              (<["code" := AInt 404]> (<["path" := AStr "/health"]> ∅))).
    rewrite Hrun1. clear. unfold RespondsJSON. split_and!; vm_compute; reflexivity.
  - exists (ctxOf (serveError 404 "404 page not found" fallback examples.ctx_nope)),
           (<["error" := AStr "Endpoint not found"]>
              (<["code" := AInt 404]> (<["path" := AStr "/nope"]> ∅))).
    rewrite Hrun2. clear. unfold RespondsJSON. split_and!; vm_compute; reflexivity.
Qed.
(** ** The logger's field bags *)

Lemma map_fold_Interface (e : Event) (m : gmap string any) :
  map_fold Interface e m = mkEvent (level e) (m ∪ fields e) (message e).
Proof.
  apply (map_fold_weak_ind
           (λ r m, r = mkEvent (level e) (m ∪ fields e) (message e))).
  - rewrite (left_id_L ∅ (∪)). by destruct e.
  - intros i x m' r _ ->. unfold Interface. simpl. by rewrite insert_union_l.
Qed.

Lemma LogError_event (err : error) (context : gmap string any) (c : Ctx) :
  LogError err context c =
    emit (mkEvent ErrorLevel (context ∪ {[ "error" := AStr (Error err) ]}) "Application error") c.
Proof. unfold LogError. rewrite map_fold_Interface. done. Qed.

Lemma LogInfo_event (text : string) (context : gmap string any) (c : Ctx) :
  LogInfo text context c = emit (mkEvent InfoLevel context text) c.
Proof.
  unfold LogInfo. rewrite map_fold_Interface. simpl. by rewrite (right_id_L ∅ (∪)).
Qed.

(** ** C2: transport failures *)


(** The error handler of the proxy, on a writer to which nothing was
    written: the 500 envelope, whatever the error is. *)
Lemma proxyErrorHandler_response (targetURL : string) (r : Request) (err : error) (c : Ctx) :
  Fresh (Writer c) →
  RespondsJSON (proxyErrorHandler targetURL r err c) 500 (envelope "Service unavailable" 500) ∧
  wheader (Writer (proxyErrorHandler targetURL r err c))
    = <["Content-Type" := "application/json"]> (wheader (Writer c)) ∧
  Log (proxyErrorHandler targetURL r err c)
    = Log c ++ [mkEvent ErrorLevel
                  (<["url" := AStr targetURL]>
                     (<["method" := AStr (Method r)]> (<["path" := AStr (URLPath r)]> ∅))
                   ∪ {[ "error" := AStr (Error err) ]})
                  "Application error"] ∧
  Now (proxyErrorHandler targetURL r err c) = Now c ∧
  Req (proxyErrorHandler targetURL r err c) = Req c.
Proof.
  intros [Hw Hb]. unfold proxyErrorHandler. rewrite LogError_event.
  unfold NewInternalError, WithStack, ErrorResponse, StatusInternalServerError. simpl.
  unfold RespondsJSON, WriteHeader, Write, WriteHeaderNow, Written. simpl. rewrite Hw. simpl.
  destruct (Z.eqb_spec (status (Writer c)) 500) as [Hs|Hs]; simpl; rewrite ?Hw, ?Hb; simpl;
    split_and!; done.
Qed.




(** ** C3: relaying the upstream's response *)

(** The response hook reads the body of an error response for the log and
    puts it back: the response it leaves has the same status and a body that
    delivers the same bytes. *)
Lemma proxyModifyResponse_restores (targetURL : string) (resp : Response) (c : Ctx) :
  failure (Body resp) = None →
  ∃ resp' c',
    proxyModifyResponse targetURL resp c = (resp', None, c') ∧
    StatusCode resp' = StatusCode resp ∧ Body resp' = Body resp ∧
    Writer c' = Writer c ∧ Now c' = Now c ∧ Req c' = Req c ∧
    ∃ info,
      level info = InfoLevel ∧
      fields info !! "method" = Some (AStr (Method (Request_ resp))) ∧
      fields info !! "path" = Some (AStr (URLPath (Request_ resp))) ∧
      fields info !! "status" = Some (AInt (StatusCode resp)) ∧
      if 400 <=? StatusCode resp then
        ∃ ev, Log c' = Log c ++ [info; ev] ∧ level ev = ErrorLevel ∧
              fields ev !! "url" = Some (AStr targetURL) ∧
              fields ev !! "status_code" = Some (AInt (StatusCode resp)) ∧
              fields ev !! "response_body" = Some (AStr (pending (Body resp)))
      else Log c' = Log c ++ [info].
Proof.
  destruct resp as [sc st [pd fl] rq]. simpl. intros ->.
  unfold proxyModifyResponse. rewrite LogInfo_event. simpl.
  destruct (400 <=? sc) eqn:Hs.
  - unfold ReadAll. simpl. rewrite LogError_event.
    eexists _, _. split; [done|]. simpl.
    split; [done|]. split; [done|].
    split_and!; try done.
    lazymatch goal with
    | |- context [(Log c ++ [?i]) ++ [?e]] =>
        exists i; split; [done|]; split_and!; try (by simplify_map_eq);
        exists e; split; [by rewrite <- app_assoc|]; split; [done|];
        split_and!; by simplify_map_eq
    end.
  - eexists _, _. split; [done|]. simpl. split_and!; try done.
    lazymatch goal with
    | |- context [Log c ++ [?i]] =>
        exists i; split; [done|]; split_and!; try (by simplify_map_eq); done
    end.
Qed.

(** C3 (as amended).  A request is dispatched to a service proxy with
    nothing written yet; the upstream's response is received in full: its
    head arrives within the timeout, with a final status (200 to 999, so
    not the 101 of a protocol switch), and its body is read to its end.
    Then the handler returns with the upstream's status as the status of the
    response and the upstream's body bytes, unchanged, as its body (no
    gateway envelope).  When the status is at least 400 the log has gained an
    error-level event that holds the body. *)
Theorem Handler_relays_upstream_response
    (targetURL : string) (target : URL) (timeout_ : Z) (network : Request → Exchange)
    (outbound : Request → string * gmap string (list string))
    (upgrade : Request → Response → Ctx → Outcome)
    (pcs : StackTrace) (p : ServiceProxy) (c : Ctx) (after : Z) (res : Response) :
  NewServiceProxy targetURL (inl target) timeout_ network outbound upgrade pcs = inl p →
  Fresh (Writer c) →
  network (Director (Path target) outbound (Req c)) = Answers after res →
  after < timeout_ →
  200 ≤ StatusCode res ≤ 999 →
  failure (Body res) = None →
  ∃ c',
    Handler p c = Returned c' ∧
    status (Writer c') = StatusCode res ∧
    body (Writer c') = (if decide (pending (Body res) = "") then []
                        else [RawBody (pending (Body res))]) ∧
    (400 ≤ StatusCode res →
       ∃ ev, ev ∈ Log c' ∧ level ev = ErrorLevel ∧
             fields ev !! "response_body" = Some (AStr (pending (Body res)))).
Proof.
  intros [= <-] [Hw Hb] Hnet Hlt Hcode Hok.
  unfold Handler, ServeHTTP. simpl. rewrite LogInfo_event. simpl.
  rewrite Hnet. unfold RoundTrip. assert ((after <? timeout_) = true) as -> by lia.
  match goal with
  | |- context [proxyModifyResponse targetURL ?r ?c0] =>
      destruct (proxyModifyResponse_restores targetURL r c0 Hok)
        as (resp' & c1 & Hmod & Hst & Hbody & Hwr & _ & _ & info & _ & _ & _ & _ & Hlog);
      rewrite Hmod
  end.
  simpl in Hst, Hbody, Hwr, Hlog. rewrite Hbody, Hok, Hst, Hwr.
  assert ((StatusCode res =? 101) = false) as -> by lia.
  eexists. split; [done|].
  assert (status (WriteHeader (StatusCode res) (Writer c)) = StatusCode res
          ∧ body (WriteHeader (StatusCode res) (Writer c)) = []
          ∧ written (WriteHeader (StatusCode res) (Writer c)) = false) as (Hs1 & Hb1 & Hw1).
  { unfold WriteHeader, Written. rewrite Hw.
    assert ((0 <? StatusCode res) = true) as -> by lia. simpl.
    destruct (Z.eqb_spec (status (Writer c)) (StatusCode res)); simpl; done. }
  rewrite LogInfo_event. simpl.
  split; [|split].
  - destruct (decide (pending (Body res) = "")); [done|]. by rewrite Write_status.
  - destruct (decide (pending (Body res) = "")); [done|].
    unfold Write, WriteHeaderNow, Written. rewrite Hw1. simpl. by rewrite Hb1.
  - intros Herr. assert ((400 <=? StatusCode res) = true) as Hge by lia.
    rewrite Hge in Hlog. destruct Hlog as (ev & Hlog & Hlev & _ & _ & Hbd).
    exists ev. split; [|done]. rewrite Hlog.
    apply elem_of_app. left. apply elem_of_app. right. set_solver.
Qed.

Lemma Handler_relays_upstream_response_witness :
  ∃ c', Handler (examples.products examples.failingNetwork) examples.ctx_long_token = Returned c' ∧
        status (Writer c') = 503 ∧
        body (Writer c') = [RawBody "upstream overloaded"].
Proof.
  destruct (Handler_relays_upstream_response examples.productsURL
              (mkURL "" examples.productsURL) (examples.seconds 5) examples.failingNetwork
              examples.sameQueryAndHeaders examples.noUpgrade []
              (examples.products examples.failingNetwork) examples.ctx_long_token
              (examples.seconds 1)
              (examples.unavailable
                 (Director "" examples.sameQueryAndHeaders (Req examples.ctx_long_token))))
    as (c' & Hrun & Hstatus & Hbody & _).
  - reflexivity.
  - split; reflexivity.
  - reflexivity.
  - reflexivity.
  - vm_compute. split; discriminate.
  - reflexivity.
  - exists c'. split_and!; done.
Defined.

(** C3 as stated fails for an upstream response with a status of 400 or
    more whose body cannot be read to its end: the upstream answers 502
    within the timeout, the hook fails to read the body for the log, and
    the client gets the gateway's own 500 envelope, not the upstream's
    status and body. *)
Lemma Handler_unreadable_error_body_counterexample :
  NewServiceProxy examples.productsURL (inl (mkURL "" examples.productsURL))
    (examples.seconds 5) examples.brokenErrorNetwork examples.sameQueryAndHeaders
    examples.noUpgrade [] = inl (examples.products examples.brokenErrorNetwork) ∧
  Fresh (Writer examples.ctx_long_token) ∧
  (∃ res, examples.brokenErrorNetwork
            (Director "" examples.sameQueryAndHeaders (Req examples.ctx_long_token))
          = Answers (examples.seconds 1) res ∧
          examples.seconds 1 < examples.seconds 5 ∧ StatusCode res = 502) ∧
  ∃ c', Handler (examples.products examples.brokenErrorNetwork) examples.ctx_long_token
          = Returned c' ∧
        RespondsJSON c' 500 (envelope "Service unavailable" 500) ∧
        status (Writer c') ≠ 502.
Proof.
  split; [reflexivity|]. split; [split; reflexivity|].
  split; [eexists; split_and!; reflexivity|].
  exists (ctxOf (Handler (examples.products examples.brokenErrorNetwork)
                   examples.ctx_long_token)).
  unfold RespondsJSON. split_and!; try (vm_compute; reflexivity).
  vm_compute. discriminate.
Qed.

(** ** C8: the gateway's own error responses *)

Lemma gatewayErrors_are_envelopes (r : Request) (code : Z) (obj : gmap string any) :
  (code, obj) ∈ gatewayErrors r → IsErrorEnvelope code obj.
Proof.
  unfold gatewayErrors, envelope. intros Hin.
  repeat (apply elem_of_cons in Hin as [[= -> ->]|Hin];
          [ unfold IsErrorEnvelope, taxonomy; split_and!;
            [ repeat first [apply list_elem_of_here | apply list_elem_of_further]
            | by simplify_map_eq | eexists; by simplify_map_eq
            | rewrite !dom_insert_L, dom_empty_L; clear; set_solver ] | ]).
  by apply elem_of_nil in Hin.
Qed.

(** C8.  Every error response that the gateway itself produces (the three
    401 rejections of the Auth Gate, the 404 and 405 fallbacks, the 500 of
    the Panic Guard where it writes one, the 500 of the proxy's error
    handler), on a writer to which nothing was written, is one of the
    responses of [gatewayErrors]: a JSON Error Envelope whose [code] is the
    status of the response, with a status of the taxonomy, built from fixed
    texts and the request's path and method only, whatever the fault, the
    stack, the transport error or the secret. *)
Theorem gateway_errors_are_envelopes :
  (∀ r code obj, (code, obj) ∈ gatewayErrors r → IsErrorEnvelope code obj) ∧
  (∀ jwtSecret next c c',
     Fresh (Writer c) → isPublicEndpoint (URLPath (Req c)) = false →
     AuthMiddleware jwtSecret next c = Returned c' → aborted c' = true →
     (∀ c0 c1, next c0 = Returned c1 → aborted c1 = false) →
     ∃ obj, RespondsJSON c' 401 obj ∧ (401, obj) ∈ gatewayErrors (Req c)) ∧
  (∀ c, Fresh (Writer c) →
     ∃ c' obj, NotFoundHandler c = Returned c' ∧ RespondsJSON c' 404 obj ∧
               (404, obj) ∈ gatewayErrors (Req c)) ∧
  (∀ c, Fresh (Writer c) →
     ∃ c' obj, MethodNotAllowedHandler c = Returned c' ∧ RespondsJSON c' 405 obj ∧
               (405, obj) ∈ gatewayErrors (Req c)) ∧
  (∀ next c v stack c',
     next c = Panicked v stack c' → Fresh (Writer c') →
     ∃ c'', RecoveryMiddleware next c = Returned c'' ∧
            (Writer c'' = Writer c' ∨
             ∃ obj, RespondsJSON c'' 500 obj ∧ (500, obj) ∈ gatewayErrors (Req c))) ∧
  (∀ targetURL r err c,
     Fresh (Writer c) →
     ∃ obj, RespondsJSON (proxyErrorHandler targetURL r err c) 500 obj ∧
            (500, obj) ∈ gatewayErrors (Req c)).
Proof.
  split_and!.
  - apply gatewayErrors_are_envelopes.
  - intros jwtSecret next c c' Hfresh Hprot Hrun Hab Hnext.
    revert Hrun. unfold AuthMiddleware. rewrite Hprot.
    destruct (decide (GetHeader "Authorization" c = "")).
    { intros [= <-]. eexists. split; [by apply JSON_on_fresh|].
      by apply (list_elem_of_lookup_2 _ 0%nat). }
    destruct (negb _ || negb _).
    { intros [= <-]. eexists. split; [by apply JSON_on_fresh|].
      by apply (list_elem_of_lookup_2 _ 1%nat). }
    destruct (validateToken _ _ _) as [[userID [err|]]|reason].
    + intros [= <-]. eexists. split; [by apply JSON_on_fresh|].
      by apply (list_elem_of_lookup_2 _ 2%nat).
    + intros Hrun. apply Hnext in Hrun. congruence.
    + done.
  - intros c Hfresh. eexists _, _. split; [done|].
    split; [by apply JSON_on_fresh|]. by apply (list_elem_of_lookup_2 _ 3%nat).
  - intros c Hfresh. eexists _, _. split; [done|].
    split; [by apply JSON_on_fresh|]. by apply (list_elem_of_lookup_2 _ 4%nat).
  - intros next c v stack c' Hnext Hfresh.
    destruct (RecoveryMiddleware_on_panic next c c' v stack Hnext)
      as (ev & _ & _ & _ & _ & _ & _ & _ & _ & Hrun).
    rewrite Hrun. eexists. split; [done|].
    destruct (status (Writer c') =? 0); [right|by left].
    eexists. split; [by apply JSON_on_fresh|]. by apply (list_elem_of_lookup_2 _ 5%nat).
  - intros targetURL r err c Hfresh.
    destruct (proxyErrorHandler_response targetURL r err c Hfresh) as (Hresp & _).
    eexists. split; [exact Hresp|]. by apply (list_elem_of_lookup_2 _ 6%nat).
Qed.

(** * Further properties of the gateway code *)

(** ** pkg/errors *)

(** [ErrorResponse] on any error: the [code] of the body is the status it
    returns; the body has an [error] text and no key besides [error],
    [code] and [details]; for an [AppError] the text is its message and
    [details] is there exactly when the error has details; for any other
    error the response is the generic 500.  The wrapped error and the
    captured stack play no part. *)
Theorem ErrorResponse_shape (err : error) :
  (fst (ErrorResponse err) = match GetAppError err with Some e => Code e | None => 500 end) ∧
  snd (ErrorResponse err) !! "code" = Some (AInt (fst (ErrorResponse err))) ∧
  snd (ErrorResponse err) !! "error"
    = Some (AStr (match GetAppError err with
                  | Some e => Message e
                  | None => "Internal server error"
                  end)) ∧
  snd (ErrorResponse err) !! "details"
    = match GetAppError err with
      | Some e => if decide (Details e = "") then None else Some (AStr (Details e))
      | None => None
      end ∧
  dom (snd (ErrorResponse err)) ⊆ ({[ "error"; "code"; "details" ]} : gset string) ∧
  (∀ e internal stack,
     GetAppError err = Some e →
     ErrorResponse (IsAppError (mkAppError (Code e) (Message e) (Details e) internal stack))
       = ErrorResponse err).
Proof.
  destruct err as [text|e]; simpl.
  - split_and!;
      first [ by simplify_map_eq
            | rewrite !dom_insert_L, dom_empty_L; clear; set_solver
            | done ].
  - destruct (decide (Details e = "")) as [Hd|Hd]; simpl;
      split_and!;
      first [ by simplify_map_eq
            | rewrite !dom_insert_L, dom_empty_L; clear; set_solver
            | intros e' internal stack [= <-]; simpl; by destruct (decide (Details e = "")) ].
Qed.

(** [WithStack] records the callers once: a second capture leaves the first
    stack in place, and every constructor returns an error that carries the
    stack of its own call. *)
Theorem WithStack_keeps_first_stack (pcs pcs' : StackTrace) (e : AppError) :
  WithStack pcs' (WithStack pcs e) = WithStack pcs e ∧
  is_Some (Stack (WithStack pcs e)) ∧
  (Stack e = None → Stack (WithStack pcs e) = Some pcs) ∧
  (∀ message details code,
     Stack (NewAppError pcs code message details) = Some pcs ∧
     WithStack pcs' (NewAppError pcs code message details) = NewAppError pcs code message details) ∧
  (∀ message inner,
     WithStack pcs' (NewInternalError pcs message inner) = NewInternalError pcs message inner).
Proof.
  unfold WithStack. destruct (Stack e) as [st|] eqn:Hst; simpl.
  - rewrite Hst. split_and!; try done; by eexists.
  - split_and!; try done; by eexists.
Qed.

Lemma string_app_eq_self (s t : string) : s +:+ t = s → t = "".
Proof.
  induction s as [|c s IH]; [done|].
  unfold String.app. simpl. intros [= H]. by apply IH.
Qed.

(** Wrapping and unwrapping.  [NewInternalError] keeps the error it is
    given and [Unwrap] returns it; the text of an [AppError] is its message
    when it wraps nothing, and otherwise the message, a colon and the text of
    the wrapped error; so the text equals the message exactly when nothing
    is wrapped. *)
Theorem AppError_wrap_unwrap (pcs : StackTrace) (message : string) (inner : option error)
    (e : AppError) :
  Unwrap (NewInternalError pcs message inner) = inner ∧
  Message (NewInternalError pcs message inner) = message ∧
  Code (NewInternalError pcs message inner) = 500 ∧
  Error (IsAppError e)
    = match Unwrap e with
      | Some err => Message e +:+ ": " +:+ Error err
      | None => Message e
      end ∧
  (Error (IsAppError e) = Message e ↔ Unwrap e = None).
Proof.
  split_and!; try reflexivity.
  unfold Unwrap. simpl. destruct (Internal e) as [err|]; [|done].
  split; [|done]. intros H%string_app_eq_self. discriminate H.
Qed.

(** ** internal/middleware *)

(** [isPublicEndpoint] holds for exactly three paths, compared byte for
    byte. *)
Theorem isPublicEndpoint_iff (path : string) :
  isPublicEndpoint path = true ↔
  path = "/api/v1/auth/login" ∨ path = "/api/v1/auth/register" ∨ path = "/health".
Proof.
  unfold isPublicEndpoint, publicEndpoints. simpl.
  destruct (decide (path = "/api/v1/auth/login")) as [->|H1]; [split; auto|].
  destruct (decide (path = "/api/v1/auth/register")) as [->|H2]; [split; auto|].
  destruct (decide (path = "/health")) as [->|H3]; [split; auto|].
  split; [done|]. intros [?|[?|?]]; done.
Qed.

(** On the three public paths the Auth Gate does nothing at all: whatever
    the Authorization header holds, the rest of the chain runs on the
    context as it is, and no principal is attached. *)
Theorem AuthMiddleware_public_passthrough
    (jwtSecret : string) (next : HandlerFunc) (c : Ctx) :
  URLPath (Req c) = "/api/v1/auth/login" ∨ URLPath (Req c) = "/api/v1/auth/register"
  ∨ URLPath (Req c) = "/health" →
  AuthMiddleware jwtSecret next c = next c.
Proof.
  intros Hpub. unfold AuthMiddleware.
  assert (isPublicEndpoint (URLPath (Req c)) = true) as ->; [|done].
  unfold isPublicEndpoint, publicEndpoints. simpl.
  repeat (case_decide; [done|]). destruct Hpub as [?|[?|?]]; done.
Qed.

Lemma AuthMiddleware_public_passthrough_witness :
  AuthMiddleware "secret" Returned
    (newCtx (examples.request "POST" "/api/v1/auth/login" {[ "Authorization" := ["garbage"] ]})
            0 examples.rand0 [])
  = Returned
      (newCtx (examples.request "POST" "/api/v1/auth/login" {[ "Authorization" := ["garbage"] ]})
              0 examples.rand0 []).
Proof. apply AuthMiddleware_public_passthrough. left. reflexivity. Defined.

(** On a protected path, with nothing written yet, the Auth Gate does one
    of two things and never panics.  Either the header is [Bearer <token>]
    with a token of at least 10 bytes, and the rest of the chain runs with
    the principal attached; or the request is answered with 401 and aborted,
    the rest of the chain is not run, nothing is sent upstream and no
    principal is attached. *)
Theorem AuthMiddleware_admits_or_rejects
    (jwtSecret : string) (next : HandlerFunc) (c : Ctx) :
  isPublicEndpoint (URLPath (Req c)) = false →
  Fresh (Writer c) →
  (∃ tokenString,
     BearerForm (GetHeader "Authorization" c) tokenString ∧ 10 ≤ len tokenString ∧
     AuthMiddleware jwtSecret next c
       = next (Set_ "user_id" (AStr ("user-" +:+ String.substring 0 8 tokenString)) c))
  ∨
  (∃ c', (∀ next', AuthMiddleware jwtSecret next' c = Returned c') ∧
         status (Writer c') = 401 ∧ aborted c' = true ∧
         Sent c' = Sent c ∧ Keys c' = Keys c ∧ Req c' = Req c).
Proof.
  intros Hprot Hfresh.
  assert (∀ message c0,
            Fresh (Writer c0) → Sent c0 = Sent c → Keys c0 = Keys c → Req c0 = Req c →
            let c' := Abort (JSON StatusUnauthorized (envelope message StatusUnauthorized) c0) in
            status (Writer c') = 401 ∧ aborted c' = true ∧
            Sent c' = Sent c ∧ Keys c' = Keys c ∧ Req c' = Req c) as Hreject.
  { intros message c0 Hf Hsent Hkeys Hreq c'.
    destruct (JSON_on_fresh 401 (envelope message 401) c0 Hf) as (Hs & _); [lia|done|].
    destruct (JSON_frame 401 (envelope message 401) c0) as (Hr & _ & Hse & Hk & _).
    unfold c'. split_and!; [exact Hs|done| | |].
    - etrans; [exact Hse|exact Hsent].
    - etrans; [exact Hk|exact Hkeys].
    - etrans; [exact Hr|exact Hreq]. }
  unfold AuthMiddleware. rewrite Hprot.
  destruct (decide (GetHeader "Authorization" c = "")) as [He|Hne].
  { right. eexists. split; [done|]. by apply Hreject. }
  destruct (negb (length (Split (GetHeader "Authorization" c) " ") =? 2)%nat
            || negb (bool_decide (Split (GetHeader "Authorization" c) " " !! 0%nat
                                  = Some "Bearer"))) eqn:Htest.
  { right. eexists. split; [done|]. by apply Hreject. }
  apply orb_false_iff in Htest as [H1 H2].
  apply negb_false_iff in H1, H2.
  apply Nat.eqb_eq in H1. apply bool_decide_eq_true in H2.
  destruct (proj1 (Split_Bearer_iff _) (conj H1 H2)) as [t Ht].
  rewrite (Split_BearerForm _ _ Ht). simpl.
  destruct (Z.lt_ge_cases (len t) 10) as [Hlt|Hge].
  - right. destruct (validateToken_short (Callers c) t jwtSecret Hlt) as [err ->].
    eexists. split; [done|]. by apply Hreject.
  - left. exists t. rewrite (validateToken_long _ _ _ Hge). done.
Qed.

Lemma AuthMiddleware_admits_or_rejects_witness :
  ∃ c', AuthMiddleware "secret" Returned examples.ctx_basic_header = Returned c' ∧
        status (Writer c') = 401 ∧ Keys c' = ∅.
Proof.
  destruct (AuthMiddleware_admits_or_rejects "secret" Returned examples.ctx_basic_header)
    as [(t & (Heq & _) & _)|(c' & Hrun & Hs & _ & _ & Hk & _)].
  - reflexivity.
  - split; reflexivity.
  - vm_compute in Heq. discriminate Heq.
  - exists c'. split_and!; [apply Hrun|done|done].
Defined.

(** The principal that [validateToken] derives depends on the first eight
    bytes of the token and on nothing else: two tokens of at least 10 bytes
    get the same result, whatever the secrets, exactly when they agree on
    their first eight bytes. *)
Theorem validateToken_principal_by_prefix
    (pcs pcs' : StackTrace) (token1 token2 secret1 secret2 : string) :
  10 ≤ len token1 → 10 ≤ len token2 →
  (validateToken pcs token1 secret1 = validateToken pcs' token2 secret2
   ↔ String.substring 0 8 token1 = String.substring 0 8 token2).
Proof.
  intros H1 H2. rewrite !validateToken_long by done. split.
  - intros [= H]. done.
  - by intros ->.
Qed.

Lemma validateToken_principal_by_prefix_witness :
  validateToken [] "abcdefgh-alice" "secret" = validateToken [] "abcdefgh-mallory" "other".
Proof.
  apply validateToken_principal_by_prefix; [vm_compute; discriminate..|reflexivity].
Defined.

(** The Panic Guard always returns.  If the rest of the chain returns, so
    does the guard, with the same context.  If it panics, the guard returns
    a context that is aborted, in which the log has gained exactly one
    event, of error level, and the request is as the panic left it. *)
Theorem RecoveryMiddleware_contains_panics (next : HandlerFunc) (c : Ctx) :
  ∃ c', RecoveryMiddleware next c = Returned c' ∧
        (next c = Returned c' ∨
         ∃ v stack c0 ev,
           next c = Panicked v stack c0 ∧ aborted c' = true ∧
           Log c' = Log c0 ++ [ev] ∧ level ev = ErrorLevel ∧
           fields ev !! "error" = Some v ∧ Req c' = Req c0 ∧ Sent c' = Sent c0).
Proof.
  destruct (next c) as [c1|v stack c0] eqn:Hnext.
  - exists c1. split; [by apply RecoveryMiddleware_on_return|by left].
  - destruct (RecoveryMiddleware_on_panic next c c0 v stack Hnext)
      as (ev & Hlev & _ & Herr & _ & _ & _ & _ & _ & Hrun).
    eexists. split; [exact Hrun|]. right. exists v, stack, c0, ev.
    split; [done|]. split; [done|].
    destruct (status (Writer c0) =? 0).
    + destruct (JSON_frame 500 (envelope "Internal server error" 500) (emit ev c0))
        as (Hr & Hl & Hs & _).
      split_and!; [exact Hl|done|done|exact Hr|exact Hs].
    + done.
Qed.

Lemma RequestIDMiddleware_run (next : HandlerFunc) (c : Ctx) :
  ∃ id c1,
    RequestIDMiddleware next c = next c1 ∧
    id ≠ "" ∧
    Req c1 = Req c ∧
    status (Writer c1) = status (Writer c) ∧ written (Writer c1) = written (Writer c) ∧
    body (Writer c1) = body (Writer c) ∧
    wheader (Writer c1) = <["X-Request-ID" := id]> (wheader (Writer c)) ∧
    Keys c1 = <["request_id" := AStr id]> (Keys c) ∧
    Log c1 = Log c ∧ Sent c1 = Sent c ∧ Now c1 = Now c ∧ aborted c1 = aborted c ∧
    Callers c1 = Callers c ∧
    RandPos c1 = (if decide (GetHeader "X-Request-ID" c = "")
                  then RandPos c + 16 else RandPos c)%nat.
Proof.
  unfold RequestIDMiddleware.
  destruct (decide (GetHeader "X-Request-ID" c = "")) as [He|Hne].
  - set (id := uuid.String_ (uuid.NewRandom (Rand c) (RandPos c))).
    assert (id ≠ "") as Hid.
    { intros Hid. pose proof (UUID_String_length (uuid.NewRandom (Rand c) (RandPos c))) as Hl.
      fold id in Hl. rewrite Hid, NewRandom_length in Hl. simpl in Hl. lia. }
    exists id. eexists. split; [done|].
    unfold SetRespHeader. destruct (decide (id = "")); [done|].
    split_and!; done.
  - exists (GetHeader "X-Request-ID" c). eexists. split; [done|].
    unfold SetRespHeader. destruct (decide (GetHeader "X-Request-ID" c = "")); [done|].
    split_and!; done.
Qed.

(** The Correlation Stamper touches the response header [X-Request-ID] and
    the context key [request_id] and nothing else: the request, the status,
    the body, the other headers and keys, the log and the abort flag reach
    the rest of the chain as they were.  It draws sixteen random bytes when
    no id was supplied, and none when one was. *)
Theorem RequestIDMiddleware_frame (next : HandlerFunc) (c : Ctx) :
  ∃ id c1,
    RequestIDMiddleware next c = next c1 ∧
    id ≠ "" ∧
    Req c1 = Req c ∧
    status (Writer c1) = status (Writer c) ∧ written (Writer c1) = written (Writer c) ∧
    body (Writer c1) = body (Writer c) ∧
    wheader (Writer c1) = <["X-Request-ID" := id]> (wheader (Writer c)) ∧
    Keys c1 = <["request_id" := AStr id]> (Keys c) ∧
    Log c1 = Log c ∧ Sent c1 = Sent c ∧ Now c1 = Now c ∧ aborted c1 = aborted c ∧
    Callers c1 = Callers c ∧
    RandPos c1 = (if decide (GetHeader "X-Request-ID" c = "")
                  then RandPos c + 16 else RandPos c)%nat.
Proof.
  unfold RequestIDMiddleware.
  destruct (decide (GetHeader "X-Request-ID" c = "")) as [He|Hne].
  - set (id := uuid.String_ (uuid.NewRandom (Rand c) (RandPos c))).
    assert (id ≠ "") as Hid.
    { intros Hid. pose proof (UUID_String_length (uuid.NewRandom (Rand c) (RandPos c))) as Hl.
      fold id in Hl. rewrite Hid, NewRandom_length in Hl. simpl in Hl. lia. }
    exists id. eexists. split; [done|].
    unfold SetRespHeader. destruct (decide (id = "")); [done|].
    split_and!; done.
  - exists (GetHeader "X-Request-ID" c). eexists. split; [done|].
    unfold SetRespHeader. destruct (decide (GetHeader "X-Request-ID" c = "")); [done|].
    split_and!; done.
Qed.

(** ** internal/util *)

(** [LogError] appends exactly one event to the log and changes nothing
    else.  The event is of error level, its message is "Application error",
    and its fields are the entries of the context together with the text of
    the error under [error] (the context has no entry of that name). *)
Theorem LogError_one_event (err : error) (context : gmap string any) (c : Ctx) :
  context !! "error" = None →
  ∃ ev,
    LogError err context c = emit ev c ∧
    level ev = ErrorLevel ∧ message ev = "Application error" ∧
    fields ev = <["error" := AStr (Error err)]> context ∧
    (∀ key v, context !! key = Some v → fields ev !! key = Some v) ∧
    dom (fields ev) = dom context ∪ {[ "error" ]}.
Proof.
  intros Hfree. rewrite LogError_event. eexists. split; [done|]. simpl.
  assert (context ∪ {["error" := AStr (Error err)]} = <["error" := AStr (Error err)]> context)
    as Heq.
  { rewrite insert_union_singleton_r by done. done. }
  rewrite Heq. split_and!; try done.
  - intros key v Hkey. rewrite lookup_insert_ne; [done|]. intros <-. congruence.
  - rewrite dom_insert_L. set_solver.
Qed.

Lemma LogError_one_event_witness :
  ∃ ev, LogError (OtherError "dial tcp: connection refused") {[ "url" := AStr "http://up" ]}
          examples.ctx_health = emit ev examples.ctx_health ∧
        level ev = ErrorLevel ∧
        fields ev !! "url" = Some (AStr "http://up").
Proof.
  destruct (LogError_one_event (OtherError "dial tcp: connection refused")
              {[ "url" := AStr "http://up" ]} examples.ctx_health)
    as (ev & Hrun & Hlev & _ & _ & Hkeys & _).
  - vm_compute. reflexivity.
  - exists ev. split_and!; [done|done|]. apply Hkeys. vm_compute. reflexivity.
Defined.

(** [LogInfo] appends exactly one event, of info level, whose message is
    the one given and whose fields are exactly the entries of the context,
    whatever order the map is walked in. *)
Theorem LogInfo_one_event (text : string) (context : gmap string any) (c : Ctx) :
  ∃ ev,
    LogInfo text context c = emit ev c ∧
    level ev = InfoLevel ∧ message ev = text ∧ fields ev = context.
Proof. rewrite LogInfo_event. eexists. split_and!; done. Qed.

(** ** internal/handler *)

(** The response hook leaves a response with a status below 400 exactly as
    it came: the body is not read (so a body that would break is not
    noticed here), no error is returned, and the log gains one info event
    with the method, the path and the status. *)
Theorem proxyModifyResponse_passes_success (targetURL : string) (resp : Response) (c : Ctx) :
  StatusCode resp < 400 →
  ∃ info,
    proxyModifyResponse targetURL resp c = (resp, None, emit info c) ∧
    level info = InfoLevel ∧ message info = "Service response" ∧
    fields info !! "url" = Some (AStr targetURL) ∧
    fields info !! "status" = Some (AInt (StatusCode resp)) ∧
    fields info !! "status_text" = Some (AStr (Status resp)).
Proof.
  intros Hok. unfold proxyModifyResponse. rewrite LogInfo_event.
  assert ((400 <=? StatusCode resp) = false) as -> by lia.
  eexists. split; [done|]. split_and!; by simplify_map_eq.
Qed.

Lemma proxyModifyResponse_passes_success_witness :
  ∃ info,
    proxyModifyResponse "http://up"
      (mkResponse 200 "200 OK" (mkBody "partial" (Some "unexpected EOF"))
                  (Req examples.ctx_health)) examples.ctx_health
    = (mkResponse 200 "200 OK" (mkBody "partial" (Some "unexpected EOF"))
                  (Req examples.ctx_health), None, emit info examples.ctx_health).
Proof.
  destruct (proxyModifyResponse_passes_success "http://up"
              (mkResponse 200 "200 OK" (mkBody "partial" (Some "unexpected EOF"))
                          (Req examples.ctx_health)) examples.ctx_health)
    as (info & Hrun & _).
  - simpl. lia.
  - exists info. exact Hrun.
Defined.

(** When the upstream answers in time with a status of 400 or more but its
    body breaks while the hook reads it for the log, the client does not get
    the upstream's status: the hook's error goes to the error handler, the
    response is the gateway's 500 "Service unavailable" envelope, and the
    log has an error event whose text is "Failed to read error response: "
    followed by the read error. *)
Theorem Handler_error_body_unreadable
    (targetURL : string) (target : URL) (timeout_ : Z) (network : Request → Exchange)
    (outbound : Request → string * gmap string (list string))
    (upgrade : Request → Response → Ctx → Outcome)
    (pcs : StackTrace) (p : ServiceProxy) (c : Ctx) (after : Z) (res : Response)
    (reason : string) :
  NewServiceProxy targetURL (inl target) timeout_ network outbound upgrade pcs = inl p →
  Fresh (Writer c) →
  network (Director (Path target) outbound (Req c)) = Answers after res →
  after < timeout_ →
  400 ≤ StatusCode res →
  failure (Body res) = Some reason →
  ∃ c' ev,
    Handler p c = Returned c' ∧
    RespondsJSON c' 500 (envelope "Service unavailable" 500) ∧
    ev ∈ Log c' ∧ level ev = ErrorLevel ∧
    fields ev !! "error" = Some (AStr ("Failed to read error response: " +:+ reason)).
Proof.
  intros [= <-] Hfresh Hnet Hlt Hcode Hfail.
  unfold Handler, ServeHTTP. simpl. rewrite LogInfo_event. simpl.
  rewrite Hnet. unfold RoundTrip. assert ((after <? timeout_) = true) as -> by lia.
  unfold proxyModifyResponse. rewrite LogInfo_event. simpl.
  assert ((400 <=? StatusCode res) = true) as -> by lia.
  unfold ReadAll. rewrite Hfail. simpl.
  match goal with
  | |- context [proxyErrorHandler targetURL ?r ?err ?c0] =>
      destruct (proxyErrorHandler_response targetURL r err c0 Hfresh)
        as (Hresp & _ & Hlog & _);
      generalize dependent (proxyErrorHandler targetURL r err c0); intros c1 Hresp Hlog
  end.
  rewrite LogInfo_event.
  eexists _, _. split; [done|]. split; [exact Hresp|].
  split.
  { simpl. rewrite Hlog. apply elem_of_app. left. apply elem_of_app. right.
    apply list_elem_of_singleton. reflexivity. }
  simpl. split; [done|]. by simplify_map_eq.
Qed.

Lemma Handler_error_body_unreadable_witness :
  ∃ c', Handler (examples.products
                   (fun r => Answers (examples.seconds 1)
                               (mkResponse 502 "502 Bad Gateway"
                                  (mkBody "half" (Some "unexpected EOF")) r)))
                examples.ctx_long_token = Returned c' ∧
        RespondsJSON c' 500 (envelope "Service unavailable" 500).
Proof.
  destruct (Handler_error_body_unreadable examples.productsURL
              (mkURL "" examples.productsURL) (examples.seconds 5)
              (fun r => Answers (examples.seconds 1)
                          (mkResponse 502 "502 Bad Gateway"
                             (mkBody "half" (Some "unexpected EOF")) r))
              examples.sameQueryAndHeaders examples.noUpgrade []
              (examples.products
                 (fun r => Answers (examples.seconds 1)
                             (mkResponse 502 "502 Bad Gateway"
                                (mkBody "half" (Some "unexpected EOF")) r)))
              examples.ctx_long_token (examples.seconds 1)
              (mkResponse 502 "502 Bad Gateway" (mkBody "half" (Some "unexpected EOF"))
                          (Director "" examples.sameQueryAndHeaders
                                    (Req examples.ctx_long_token)))
              "unexpected EOF")
    as (c' & ev & Hrun & Hresp & _).
  - reflexivity.
  - split; reflexivity.
  - reflexivity.
  - reflexivity.
  - simpl. lia.
  - reflexivity.
  - exists c'. split; done.
Defined.

Lemma proxyErrorHandler_frame (targetURL : string) (r : Request) (err : error) (c : Ctx) :
  Sent (proxyErrorHandler targetURL r err c) = Sent c ∧
  Req (proxyErrorHandler targetURL r err c) = Req c ∧
  Keys (proxyErrorHandler targetURL r err c) = Keys c ∧
  ∃ ev, Log (proxyErrorHandler targetURL r err c) = Log c ++ [ev] ∧ level ev = ErrorLevel.
Proof.
  unfold proxyErrorHandler. rewrite LogError_event. simpl. split_and!; try done.
  eexists. split; done.
Qed.

Lemma proxyModifyResponse_frame (targetURL : string) (resp : Response) (c : Ctx) :
  ∃ resp' err c',
    proxyModifyResponse targetURL resp c = (resp', err, c') ∧
    Sent c' = Sent c ∧ Req c' = Req c ∧ Keys c' = Keys c ∧ Writer c' = Writer c ∧
    StatusCode resp' = StatusCode resp ∧
    ∃ evs, Log c' = Log c ++ evs.
Proof.
  unfold proxyModifyResponse. rewrite LogInfo_event.
  destruct (400 <=? StatusCode resp).
  - unfold ReadAll. destruct (failure (Body resp)); simpl.
    + eexists _, _, _. split; [done|]. split_and!; try done. by eexists.
    + rewrite LogError_event. eexists _, _, _. split; [done|]. split_and!; try done.
      simpl. eexists. by rewrite <- app_assoc.
  - eexists _, _, _. split; [done|]. split_and!; try done. by eexists.
Qed.

(** What the proxy handler itself does around the exchange (an upstream
    that does not switch protocols).  Whatever comes back, the handler
    leaves the inbound request and the context keys as they were, and the
    first event it adds to the log is the info event "Proxying request" with
    the target, the method, the path and the query of the inbound request.
    When it returns, the last event is the info event "Request completed"
    with the final status of the response and the client address. *)
Theorem Handler_brackets_exchange
    (targetURL : string) (target : URL) (timeout_ : Z) (network : Request → Exchange)
    (outbound : Request → string * gmap string (list string))
    (upgrade : Request → Response → Ctx → Outcome)
    (pcs : StackTrace) (p : ServiceProxy) (c : Ctx) :
  NewServiceProxy targetURL (inl target) timeout_ network outbound upgrade pcs = inl p →
  (∀ after res, network (Director (Path target) outbound (Req c)) = Answers after res →
                StatusCode res ≠ 101) →
  Req (ctxOf (Handler p c)) = Req c ∧
  Keys (ctxOf (Handler p c)) = Keys c ∧
  ∃ first rest,
    Log (ctxOf (Handler p c)) = Log c ++ first :: rest ∧
    level first = InfoLevel ∧ message first = "Proxying request" ∧
    fields first !! "url" = Some (AStr (Text target)) ∧
    fields first !! "method" = Some (AStr (Method (Req c))) ∧
    fields first !! "path" = Some (AStr (URLPath (Req c))) ∧
    fields first !! "query" = Some (AStr (RawQuery (Req c))) ∧
    ∀ c', Handler p c = Returned c' →
          ∃ middle last,
            rest = middle ++ [last] ∧
            level last = InfoLevel ∧ message last = "Request completed" ∧
            fields last !! "url" = Some (AStr (Text target)) ∧
            fields last !! "status_code" = Some (AInt (status (Writer c'))) ∧
            fields last !! "client_ip" = Some (AStr (ClientIP c')).
Proof.
  intros [= <-] Hno101.
  unfold Handler, ServeHTTP. simpl. rewrite LogInfo_event. simpl.
  destruct (network (Director (Path target) outbound (Req c))) as [after reason|after res|]
    eqn:Hnet; unfold RoundTrip.
  1: destruct (after <? timeout_).
  3: destruct (after <? timeout_).
  (* a response head *)
  3: { simpl.
       match goal with
       | |- context [proxyModifyResponse ?u ?r ?c0] =>
           destruct (proxyModifyResponse_frame u r c0)
             as (resp' & err' & c1 & -> & Hs & Hr & Hk & Hw & Hst & evs & Hlog)
       end.
       simpl in Hr, Hk, Hlog, Hst.
       destruct err' as [err'|].
       - match goal with
         | |- context [proxyErrorHandler ?u ?r ?e c1] =>
             destruct (proxyErrorHandler_frame u r e c1) as (_ & Hr' & Hk' & ev & Hlog' & _);
             generalize dependent (proxyErrorHandler u r e c1); intros c2 Hr' Hk' Hlog'
         end.
         rewrite LogInfo_event. cbn [ctxOf emit Req Keys Log].
         split; [congruence|]. split; [congruence|].
         eexists _, _. split.
         { rewrite Hlog', Hlog, <- !app_assoc. simpl. reflexivity. }
         split_and!; try by simplify_map_eq.
         intros c' [= <-]. exists (evs ++ [ev]). eexists. split; [by rewrite <- app_assoc|].
         split_and!; by simplify_map_eq.
       - assert ((StatusCode resp' =? 101) = false) as ->.
         { rewrite Hst. apply Z.eqb_neq. by eapply Hno101. }
         destruct (failure (Body resp')).
         + cbn [ctxOf withWriter Req Keys Log].
           split; [done|]. split; [done|].
           eexists _, _. split; [rewrite Hlog, <- app_assoc; simpl; reflexivity|].
           split_and!; by simplify_map_eq.
         + rewrite LogInfo_event. cbn [ctxOf emit withWriter Req Keys Log].
           split; [done|]. split; [done|].
           eexists _, _. split; [rewrite Hlog, <- !app_assoc; simpl; reflexivity|].
           split_and!; try by simplify_map_eq.
           intros c' [= <-]. exists evs. eexists. split; [done|].
           split_and!; by simplify_map_eq. }
  (* the transport returns an error *)
  all: cbv beta iota zeta;
    match goal with
    | |- context [proxyErrorHandler ?u ?r ?e ?c0] =>
        destruct (proxyErrorHandler_frame u r e c0) as (_ & Hr' & Hk' & ev & Hlog' & _);
        generalize dependent (proxyErrorHandler u r e c0); intros c2 Hr' Hk' Hlog'
    end;
    rewrite LogInfo_event; cbn [ctxOf emit Req Keys Log];
    (split; [done|]); (split; [done|]);
    eexists _, _; (split; [rewrite Hlog'; simpl; rewrite <- !app_assoc; simpl; reflexivity|]);
    split_and!; try (by simplify_map_eq);
    intros c' [= <-]; exists [ev]; eexists; (split; [done|]);
    split_and!; by simplify_map_eq.
Qed.

Lemma Handler_brackets_exchange_witness :
  ∃ first rest,
    Log (ctxOf (Handler (examples.products examples.failingNetwork) examples.ctx_long_token))
      = first :: rest ∧
    message first = "Proxying request".
Proof.
  destruct (Handler_brackets_exchange examples.productsURL (mkURL "" examples.productsURL)
              (examples.seconds 5) examples.failingNetwork
              examples.sameQueryAndHeaders examples.noUpgrade []
              (examples.products examples.failingNetwork) examples.ctx_long_token eq_refl)
    as (_ & _ & first & rest & Hlog & _ & Hmsg & _).
  - intros after res [= _ <-]. vm_compute. discriminate.
  - exists first, rest. split; [exact Hlog|exact Hmsg].
Defined.

(** ** The wiring of [main] *)

Lemma GinLogger_returns (next : HandlerFunc) (c c' : Ctx) :
  next c = Returned c' →
  ∃ ev, GinLogger next c = Returned (emit ev c') ∧
        message ev = "HTTP request" ∧
        level ev = (if 400 <=? status (Writer c') then ErrorLevel else InfoLevel) ∧
        fields ev !! "status" = Some (AInt (status (Writer c'))) ∧
        fields ev !! "request_id" = Some (AStr (GetString "request_id" c')).
Proof.
  intros Hnext. unfold GinLogger. rewrite Hnext. eexists. split; [done|].
  unfold Msg, Str, Int, Dur, Interface. simpl.
  split_and!; try by simplify_map_eq.
  by destruct (400 <=? status (Writer c')).
Qed.

(** The global middlewares around a handler that returns (for a request
    without an [Origin] header): the handler runs on the context stamped
    with the correlation id, and the access record follows it. *)
Lemma global_chain_returns (final : HandlerFunc) (c : Ctx) :
  (∀ c1, Req c1 = Req c → ∃ c2, final c1 = Returned c2) →
  ∃ id c1 c2 ev,
    id ≠ "" ∧
    Req c1 = Req c ∧ Writer c1 = SetHeader "X-Request-ID" id (Writer c) ∧
    Keys c1 = <["request_id" := AStr id]> (Keys c) ∧
    Log c1 = Log c ∧ Sent c1 = Sent c ∧ Callers c1 = Callers c ∧
    final c1 = Returned c2 ∧
    chain [RecoveryMiddleware; RequestIDMiddleware; LoggingMiddleware; corsNoOrigin] final c
      = Returned (emit ev c2) ∧
    message ev = "HTTP request" ∧
    level ev = (if 400 <=? status (Writer c2) then ErrorLevel else InfoLevel) ∧
    fields ev !! "status" = Some (AInt (status (Writer c2))).
Proof.
  intros Hfinal. simpl.
  destruct (RequestIDMiddleware_run (LoggingMiddleware (corsNoOrigin final)) c)
    as (id & c1 & Hrun & Hid & Hreq & Hst & Hwr & Hbd & Hhd & Hkeys & Hlog & Hsent & _ & _ & Hcall & _).
  destruct (Hfinal c1 Hreq) as [c2 Hc2].
  destruct (GinLogger_returns (corsNoOrigin final) c1 c2 Hc2)
    as (ev & Hlogger & Hmsg & Hlev & Hstatus & _).
  exists id, c1, c2, ev. split_and!; try done.
  - destruct (Writer c1), (Writer c). simpl in *. unfold SetHeader. simpl. congruence.
  - apply RecoveryMiddleware_on_return. rewrite Hrun. exact Hlogger.
Qed.

Lemma AuthMiddleware_no_header (jwtSecret : string) (next : HandlerFunc) (c : Ctx) :
  isPublicEndpoint (URLPath (Req c)) = false →
  Header (Req c) !! "Authorization" = None →
  AuthMiddleware jwtSecret next c
    = Returned (Abort (JSON 401 (envelope "Authorization header required" 401) c)).
Proof.
  intros Hprot Habs. unfold AuthMiddleware. rewrite Hprot.
  unfold GetHeader, Header_Get. rewrite Habs. done.
Qed.

(** Evaluating the route tests of the engine on a given method and path. *)
Ltac route_tests :=
  repeat match goal with
  | |- context [bool_decide (?a = ?b) && pathMatches ?p ?q] =>
      let v := eval vm_compute in (bool_decide (a = b) && pathMatches p q) in
      let H := fresh in
      assert (bool_decide (a = b) && pathMatches p q = v) as H by (vm_compute; reflexivity);
      rewrite H; clear H
  end.

(** [GET /health] through the whole gateway, for a request without an
    [Origin] header (for which the CORS middleware does nothing): whatever
    the other headers are, with or without a
    token, the response is 200 with the health object; nothing is sent
    upstream, no principal is attached, the response carries a correlation
    id, and the log holds one access record, of info level. *)
Theorem gateway_health_is_open
    (jwtSecret : string) (authProxy productsProxy : ServiceProxy)
    (query : string) (headers : gmap string (list string)) (ip : string)
    (now : Z) (rand : nat → ascii) (pcs : list Z) :
  headers !! "Origin" = None →
  ∃ c' obj ev,
    handleHTTPRequest (gateway corsNoOrigin jwtSecret authProxy productsProxy)
      (newCtx (mkRequest "GET" "/health" query headers ip) now rand pcs) = Returned c' ∧
    RespondsJSON c' 200 obj ∧
    obj !! "status" = Some (AStr "healthy") ∧
    obj !! "service" = Some (AStr "api-gateway") ∧
    Sent c' = [] ∧
    Keys c' !! "user_id" = None ∧
    is_Some (wheader (Writer c') !! "X-Request-ID") ∧
    Log c' = [ev] ∧ level ev = InfoLevel ∧ message ev = "HTTP request".
Proof.
  intros _.
  set (c := newCtx (mkRequest "GET" "/health" query headers ip) now rand pcs).
  destruct (global_chain_returns HealthCheck c)
    as (id & c1 & c2 & ev & Hid & Hreq & Hwr & Hkeys & Hlog & Hsent & _ & Hfin & Hrun
        & Hmsg & Hlev & _).
  { intros c1 _. by eexists. }
  unfold HealthCheck in Hfin. injection Hfin as <-.
  assert (Fresh (Writer c1)) as Hfresh by (rewrite Hwr; split; reflexivity).
  match type of Hrun with
  | context [JSON ?code ?obj c1] =>
      destruct (JSON_on_fresh code obj c1 Hfresh) as (Hs & Hb & Hw); [done|done|];
      destruct (JSON_frame code obj c1) as (Hr' & Hl' & Hs' & Hk' & _);
      assert (wheader (Writer (JSON code obj c1)) !! "X-Request-ID" = Some id) as Hhd;
      [ unfold JSON, writeContentType; rewrite Hwr; simpl; by simplify_map_eq |];
      exists (emit ev (JSON code obj c1)), obj, ev
  end.
  split.
  { unfold handleHTTPRequest, decide_, lookup.
    change (Method (Req c)) with "GET". change (URLPath (Req c)) with "/health".
    unfold gateway. cbn [routes List.find routeMethod routePattern]. route_tests.
    cbn [routeHandlers andb]. change (RedirectTrailingSlash New) with true.
    unfold New. cbn [app].
    rewrite Hrun. unfold WriteHeaderNow, Written.
    change (written (Writer (emit ev ?x))) with (written (Writer x)). rewrite Hw.
    by destruct (emit ev _). }
  split; [split_and!; [exact Hs|exact Hb|exact Hw]|].
  split; [by simplify_map_eq|]. split; [by simplify_map_eq|].
  split; [cbn [emit Sent]; by rewrite Hs', Hsent|].
  split; [cbn [emit Keys]; rewrite Hk', Hkeys; by simplify_map_eq|].
  split; [cbn [emit Writer]; rewrite Hhd; by eexists|].
  split; [cbn [emit Log]; by rewrite Hl', Hlog|].
  split; [|done]. rewrite Hlev, Hs. done.
Qed.

Lemma gateway_health_is_open_witness :
  ∃ c',
    handleHTTPRequest
      (gateway corsNoOrigin "secret" (examples.products examples.silentNetwork)
               (examples.products examples.silentNetwork))
      (newCtx (mkRequest "GET" "/health" "verbose=1" {[ "Authorization" := ["Bearer abc"] ]}
                         "203.0.113.7") 0 examples.rand0 [])
      = Returned c' ∧
    status (Writer c') = 200 ∧ Sent c' = [].
Proof.
  destruct (gateway_health_is_open "secret" (examples.products examples.silentNetwork)
              (examples.products examples.silentNetwork) "verbose=1"
              {[ "Authorization" := ["Bearer abc"] ]} "203.0.113.7" 0 examples.rand0 [])
    as (c' & obj & ev & Hrun & (Hstatus & _) & _ & _ & Hsent & _).
  - vm_compute. reflexivity.
  - exists c'. split_and!; done.
Defined.

(** The product collection through the whole gateway (for a request without
    an [Origin] header): a GET or POST of [/api/v1/products] without an
    Authorization header, whatever its other headers, is answered 401
    "Authorization header required"; nothing is sent upstream, and the log
    holds one access record, of error level, with the status 401. *)
Theorem gateway_products_need_header
    (jwtSecret : string) (authProxy productsProxy : ServiceProxy)
    (method query : string) (headers : gmap string (list string)) (ip : string)
    (now : Z) (rand : nat → ascii) (pcs : list Z) :
  method = "GET" ∨ method = "POST" →
  headers !! "Authorization" = None →
  headers !! "Origin" = None →
  ∃ c' ev,
    handleHTTPRequest (gateway corsNoOrigin jwtSecret authProxy productsProxy)
      (newCtx (mkRequest method "/api/v1/products" query headers ip) now rand pcs)
      = Returned c' ∧
    RespondsJSON c' 401 (envelope "Authorization header required" 401) ∧
    aborted c' = true ∧
    Sent c' = [] ∧
    Keys c' !! "user_id" = None ∧
    Log c' = [ev] ∧ level ev = ErrorLevel ∧ message ev = "HTTP request" ∧
    fields ev !! "status" = Some (AInt 401).
Proof.
  intros Hmethod Habs _.
  set (c := newCtx (mkRequest method "/api/v1/products" query headers ip) now rand pcs).
  set (final := AuthMiddleware jwtSecret (Handler productsProxy)).
  assert (∀ c1, Req c1 = Req c →
            final c1 = Returned (Abort (JSON 401 (envelope "Authorization header required" 401) c1)))
    as Hauth.
  { intros c1 Hreq. apply AuthMiddleware_no_header; rewrite Hreq; [reflexivity|exact Habs]. }
  destruct (global_chain_returns final c)
    as (id & c1 & c2 & ev & Hid & Hreq & Hwr & Hkeys & Hlog & Hsent & _ & Hfin & Hrun
        & Hmsg & Hlev & Hst).
  { intros c1 Hreq. eexists. by apply Hauth. }
  rewrite (Hauth c1 Hreq) in Hfin. injection Hfin as <-.
  assert (Fresh (Writer c1)) as Hfresh by (rewrite Hwr; split; reflexivity).
  destruct (JSON_on_fresh 401 (envelope "Authorization header required" 401) c1 Hfresh)
    as (Hs & Hb & Hw); [done|done|].
  destruct (JSON_frame 401 (envelope "Authorization header required" 401) c1)
    as (Hr' & Hl' & Hs' & Hk' & _).
  exists (emit ev (Abort (JSON 401 (envelope "Authorization header required" 401) c1))), ev.
  split.
  { unfold handleHTTPRequest, decide_, lookup.
    change (Method (Req c)) with method. change (URLPath (Req c)) with "/api/v1/products".
    unfold gateway. cbn [routes List.find routeMethod routePattern].
    destruct Hmethod as [-> | ->]; route_tests; cbn [routeHandlers andb app];
      change (chain [RecoveryMiddleware; RequestIDMiddleware; LoggingMiddleware; corsNoOrigin;
                     AuthMiddleware jwtSecret] (Handler productsProxy) c)
        with (chain [RecoveryMiddleware; RequestIDMiddleware; LoggingMiddleware; corsNoOrigin]
                    final c);
      rewrite Hrun; unfold WriteHeaderNow, Written;
      cbn [emit Abort Writer]; rewrite Hw; by destruct c1. }
  split; [split_and!; [exact Hs|exact Hb|exact Hw]|].
  split; [done|].
  split; [cbn [emit Abort Sent]; by rewrite Hs', Hsent|].
  split; [cbn [emit Abort Keys]; rewrite Hk', Hkeys; by simplify_map_eq|].
  split; [cbn [emit Abort Log]; by rewrite Hl', Hlog|].
  split; [rewrite Hlev; cbn [Abort Writer]; by rewrite Hs|].
  split; [done|]. rewrite Hst. cbn [Abort Writer]. by rewrite Hs.
Qed.

Lemma gateway_products_need_header_witness :
  ∃ c',
    handleHTTPRequest
      (gateway corsNoOrigin "secret" (examples.products examples.silentNetwork)
               (examples.products examples.silentNetwork))
      (newCtx (mkRequest "POST" "/api/v1/products" "" {[ "X-Request-ID" := ["req-1"] ]}
                         "203.0.113.7") 0 examples.rand0 [])
      = Returned c' ∧
    RespondsJSON c' 401 (envelope "Authorization header required" 401) ∧
    Sent c' = [].
Proof.
  destruct (gateway_products_need_header "secret" (examples.products examples.silentNetwork)
              (examples.products examples.silentNetwork) "POST" ""
              {[ "X-Request-ID" := ["req-1"] ]} "203.0.113.7" 0 examples.rand0 [])
    as (c' & ev & Hrun & Hresp & _ & Hsent & _).
  - right. reflexivity.
  - vm_compute. reflexivity.
  - vm_compute. reflexivity.
  - exists c'. split_and!; done.
Defined.
